(** * MediaSaverBot: the download-dispatch-and-delivery pipeline of [bot.py]

    A shallow embedding of [handle_url] (bot.py, lines 61-256) and of the
    data it passes to the persistence layer (models.py), followed by the
    properties of the pipeline.

    Conventions of the embedding.

    - A Python [str] is a Rocq [string] holding its UTF-8 encoding, so a
      literal of the source is the same literal here and concatenation is
      [++].  [str.lower] is written out for the ASCII letters; the five
      keywords of the failure classifier are ASCII, contain no [k] and do
      not end in [i], so the only two non-ASCII code points whose lower
      case contains an ASCII letter (U+212A and U+0130) cannot create or
      destroy a match, and the substring tests of the source are decided
      exactly on the encoded text.
    - Every call that leaves [handle_url] (messaging, persistence, the
      downloaders, the file system, logging) is recorded as an [event] of
      the run, together with whether it raised.  What such a call returns
      or raises is given by a [World]; [handle_url] is a function of the
      world and of the update.
    - Exceptions are values: a computation returns [Ok a] or [Raise e], and
      [try_except] selects a handler by the class of the exception, as the
      [except] clauses of the source do. *)

From Stdlib Require Import ZArith QArith List String Ascii Bool Lia DecimalString.
Import ListNotations.

Local Open Scope Z_scope.
Local Open Scope list_scope.
Local Open Scope string_scope.

(* ================================================================== *)
(** ** Strings *)
(* ================================================================== *)

Module Str.

Definition nl : string := String "010"%char EmptyString.

(** [c.lower()] for one byte of the encoded text. *)
Definition lower_char (c : ascii) : ascii :=
  let n := nat_of_ascii c in
  if ((65 <=? n) && (n <=? 90))%nat then ascii_of_nat (n + 32) else c.

(** [s.lower()] *)
Fixpoint lower (s : string) : string :=
  match s with
  | EmptyString => EmptyString
  | String c s' => String (lower_char c) (lower s')
  end.

(** [pat in s] *)
Fixpoint str_in (pat s : string) : bool :=
  if String.prefix pat s then true
  else match s with
       | EmptyString => false
       | String _ s' => str_in pat s'
       end.

(** [s.startswith(p)] *)
Definition startswith (s p : string) : bool := String.prefix p s.

(** [str(n)] for an [int]. *)
Definition str_of_int (n : Z) : string := NilZero.string_of_int (Z.to_int n).

(** Truth value of a [str]: the empty string is false. *)
Definition truthy (s : string) : bool :=
  match s with EmptyString => false | _ => true end.

(** The code points Python's [str.isspace] accepts, in UTF-8:
    U+0009-000D, U+001C-001F, U+0020, U+0085, U+00A0, U+1680,
    U+2000-200A, U+2028, U+2029, U+202F, U+205F, U+3000. *)
Definition bytes (l : list nat) : string :=
  fold_right (fun n s => String (ascii_of_nat n) s) EmptyString l.

Definition whitespace : list string :=
  map bytes
    ([[9]; [10]; [11]; [12]; [13]; [28]; [29]; [30]; [31]; [32];
      [194; 133]; [194; 160]; [225; 154; 128]]
     ++ map (fun k => [226; 128; k])
            [128; 129; 130; 131; 132; 133; 134; 135; 136; 137; 138; 168; 169; 175]
     ++ [[226; 129; 159]; [227; 128; 128]])%list%nat.

Fixpoint drop (n : nat) (s : string) : string :=
  match n, s with
  | O, _ => s
  | S n', String _ s' => drop n' s'
  | S _, EmptyString => EmptyString
  end.

Fixpoint rev_acc (s acc : string) : string :=
  match s with
  | EmptyString => acc
  | String c s' => rev_acc s' (String c acc)
  end.

Definition rev (s : string) : string := rev_acc s EmptyString.

(** [s.lstrip()] with the candidate white space given as [ws]; [fuel]
    bounds the number of characters removed. *)
Fixpoint lstrip_with (ws : list string) (fuel : nat) (s : string) : string :=
  match fuel with
  | O => s
  | S fuel' =>
      match find (fun w => String.prefix w s) ws with
      | Some w => lstrip_with ws fuel' (drop (String.length w) s)
      | None => s
      end
  end.

Definition lstrip (s : string) : string :=
  lstrip_with whitespace (String.length s) s.

Definition rstrip (s : string) : string :=
  rev (lstrip_with (map rev whitespace) (String.length s) (rev s)).

(** [s.strip()] *)
Definition strip (s : string) : string := rstrip (lstrip s).

End Str.

(* ================================================================== *)
(** ** Exceptions, results and the trace of a run *)
(* ================================================================== *)

(** The classes of exception the [except] clauses of [handle_url] tell
    apart.  [DownloadError] is the class imported from [downloaders],
    taken to derive from [Exception] and not from [OSError]; [OSError]
    stands for [OSError] and its subclasses ([FileNotFoundError] among
    them); every other subclass of [Exception] is an [OtherException].
    Each carries [str(e)]. *)
Inductive exn : Type :=
| DownloadError (msg : string)
| OSError (msg : string)
| OtherException (msg : string).

Definition str (e : exn) : string :=
  match e with
  | DownloadError msg | OSError msg | OtherException msg => msg
  end.

Inductive result (A : Type) : Type :=
| Ok (a : A)
| Raise (e : exn).

Arguments Ok {A} a.
Arguments Raise {A} e.

Definition raised {A} (r : result A) : bool :=
  match r with Ok _ => false | Raise _ => true end.

(** models.py, [class User]; an instance is always true in a condition,
    [None] is false. *)
Record User : Type := {
  user_id : Z;
  username : option string;
  first_name : option string;
  last_name : option string;
  language_code : option string;
  is_premium : bool
}.

(** The arguments of one [record_download] call, which become a row of
    models.py, [class Download].  [dl_file_size] is the size in MB, kept
    as the exact quotient [file_size / (1024*1024)]; the source holds the
    double nearest to it. *)
Record Download : Type := {
  dl_user_id : Z;
  dl_url : string;
  dl_source_type : string;
  dl_file_size : option Q;
  dl_status : string;
  dl_error_message : option string
}.

(** The inbound text message event. *)
Record Update : Type := {
  message_text : string;
  sender_id : Z
}.

(** The constants [bot.py] imports from [config]. *)
Record Config : Type := {
  DOWNLOAD_SUCCESS_MESSAGE : string;
  INVALID_URL_MESSAGE : string;
  PROCESSING_MESSAGE : string;
  ERROR_MESSAGE : string;
  DONATION_URL : string
}.

Inductive platform : Type := youtube | instagram | tiktok | twitter | facebook.

Inductive level : Type := INFO | WARNING | ERROR.

(** A log line: its text, or the size that line 116 formats with [:.2f]. *)
Inductive log_msg : Type :=
| Text (s : string)
| DownloadedSize (file_size_mb : Q).

(** The calls [handle_url] makes to its collaborators. *)
Inductive call : Type :=
| Logger (lvl : level) (msg : log_msg)
| ReplyText (text : string)
| GetOrCreateUser
| DownloadVideo (p : platform) (url : string)
| OsPathExists (path : string)
| OsPathGetsize (path : string)
| RecordDownload (row : Download)
| OpenRb (path : string)
| GetDonationKeyboard (url : string)
| ReplyVideo (path caption : string) (keyboard : bool)
| ProcessingDelete
| OsRemove (path : string)
| OsRmdir (path : string)
| EditText (text : string).

Record event : Type := { ev_call : call; ev_raised : bool }.

(** What the collaborators answer during one run.  The Flask application
    context entered around the persistence calls is taken not to raise.
    A run starts from a message that carries a text and from a classifier
    that returns: reading the text (line 63) and [get_url_type] (line 67)
    have no exception among their answers. *)
Record World : Type := {
  get_url_type : string -> option string;
  get_or_create_user : Update -> result (option User);
  reply_text : string -> result unit;
  download_youtube_video : string -> result (option string);
  download_instagram_video : string -> result (option string);
  download_tiktok_video : string -> result (option string);
  download_twitter_video : string -> result (option string);
  download_facebook_video : string -> result (option string);
  os_path_exists : string -> bool;
  os_path_getsize : string -> result Z;
  record_download : Download -> result unit;
  open_rb : string -> result unit;
  get_donation_keyboard : string -> result bool;
  reply_video : string -> string -> bool -> result unit;
  processing_delete : result unit;
  os_remove : string -> result unit;
  os_path_dirname : string -> string;
  gettempdir : string;
  os_rmdir : string -> result unit;
  edit_text : string -> result unit
}.

(** *** The monad of a run: the calls made so far and a result. *)
Module Run.

Definition M (A : Type) : Type := (list event * result A)%type.

Definition ret {A} (a : A) : M A := ([], Ok a).

Definition raise {A} (e : exn) : M A := ([], Raise e).

Definition bind {A B} (m : M A) (f : A -> M B) : M B :=
  match m with
  | (t, Ok a) => let (t', r) := f a in ((t ++ t')%list, r)
  | (t, Raise e) => (t, Raise e)
  end.

(** [try: body except ...:]; [handler e] is the body of the first clause
    that matches [e], [None] when no clause does.  An exception raised
    by a handler is not caught by a sibling clause. *)
Definition try_except {A} (body : M A) (handler : exn -> option (M A)) : M A :=
  match body with
  | (t, Ok a) => (t, Ok a)
  | (t, Raise e) =>
      match handler e with
      | Some h => let (t', r) := h in ((t ++ t')%list, r)
      | None => (t, Raise e)
      end
  end.

(** One call to a collaborator, answered by [r]. *)
Definition perform {A} (c : call) (r : result A) : M A :=
  ([{| ev_call := c; ev_raised := raised r |}], r).

Definition trace {A} (m : M A) : list event := fst m.
Definition outcome {A} (m : M A) : result A := snd m.

End Run.

Import Run.

Declare Scope run_scope.
Delimit Scope run_scope with run.
Notation "x <- m ;; k" := (bind m (fun x => k))
  (at level 100, m at next level, right associativity) : run_scope.
Notation "m ;; k" := (bind m (fun _ => k))
  (at level 100, right associativity) : run_scope.
Local Open Scope run_scope.

(* ================================================================== *)
(** ** The failure classifier (bot.py, lines 220-232) *)
(* ================================================================== *)

Definition private_account_message : string :=
  "😔 Sorry, I can't download videos from private accounts. The account needs to be public.".
Definition too_large_message : string :=
  "😔 Sorry, this video is too large to send via Telegram. Telegram has a 50MB size limit.".
Definition no_video_message : string :=
  "😔 This post doesn't contain a video. I can only download video content.".
Definition metadata_message : string :=
  "😔 I couldn't load information about this video. It might be private or restricted.".
Definition no_stream_message : string :=
  "😔 No suitable video format found. The video might be unavailable or protected.".

(** The [if]/[elif] chain of the source; [fallback] is [ERROR_MESSAGE]. *)
Definition user_friendly_message (fallback error_message : string) : string :=
  if Str.str_in "is private" (Str.lower error_message) then
    private_account_message
  else if Str.str_in "is too large" (Str.lower error_message) then
    too_large_message
  else if Str.str_in "does not contain a video" (Str.lower error_message) then
    no_video_message
  else if Str.str_in "could not load video information" (Str.lower error_message) then
    metadata_message
  else if Str.str_in "no suitable video streams" (Str.lower error_message) then
    no_stream_message
  else fallback.

(** The classifier as the specification words it: an ordered list of
    keyword patterns and their templates, the first match wins. *)
Definition patterns : list (string * string) :=
  [ ("is private", private_account_message);
    ("is too large", too_large_message);
    ("does not contain a video", no_video_message);
    ("could not load video information", metadata_message);
    ("no suitable video streams", no_stream_message) ].

Definition classify_message (fallback raw_error_text : string) : string :=
  match find (fun p => Str.str_in (fst p) (Str.lower raw_error_text)) patterns with
  | Some p => snd p
  | None => fallback
  end.

(* ================================================================== *)
(** ** The pipeline (bot.py, [handle_url]) *)
(* ================================================================== *)

Section Pipeline.

Variable cfg : Config.
Variable w : World.

Definition log (lvl : level) (s : string) : M unit :=
  perform (Logger lvl (Text s)) (Ok tt).

(** Lines 74-82. *)
Definition resolve_user (update : Update) : M (option User) :=
  try_except
    (user_db <- perform GetOrCreateUser (get_or_create_user w update) ;;
     match user_db with
     | Some _ => ret user_db
     | None => log ERROR "Failed to get or create user in database" ;; ret user_db
     end)
    (fun e => Some (log ERROR ("Database error when creating user: " ++ str e) ;;
                    ret None)).

(** [if user_db: record_download(user_db.user_id, url, url_type, ...)] *)
Definition record_if_user (user_db : option User) (url url_type : string)
    (file_size_mb : option Q) (status : string) (error_message : option string)
  : M unit :=
  match user_db with
  | Some u =>
      let row := {| dl_user_id := user_id u; dl_url := url;
                    dl_source_type := url_type; dl_file_size := file_size_mb;
                    dl_status := status; dl_error_message := error_message |} in
      perform (RecordDownload row) (record_download w row)
  | None => ret tt
  end.

(** Lines 95-104. *)
Definition dispatch (url_type url : string) : M (option string) :=
  if (url_type =? "youtube")%string then
    perform (DownloadVideo youtube url) (download_youtube_video w url)
  else if (url_type =? "instagram")%string then
    perform (DownloadVideo instagram url) (download_instagram_video w url)
  else if (url_type =? "tiktok")%string then
    perform (DownloadVideo tiktok url) (download_tiktok_video w url)
  else if (url_type =? "twitter")%string then
    perform (DownloadVideo twitter url) (download_twitter_video w url)
  else if (url_type =? "facebook")%string then
    perform (DownloadVideo facebook url) (download_facebook_video w url)
  else ret None.

Definition max_size_mb : Z := 50.

(** Lines 118-132; [file_size_mb] is [file_size / (1024*1024)]. *)
Definition size_gate (user_db : option User) (url url_type : string)
    (file_size : Z) (file_size_mb : Q) : M unit :=
  if file_size >? max_size_mb * 1024 * 1024 then
    record_if_user user_db url url_type (Some file_size_mb) "failed"
      (Some ("Video too large to send (limit: " ++ Str.str_of_int max_size_mb ++ "MB)")) ;;
    raise (DownloadError ("The video is too large to send via Telegram (limit: "
                          ++ Str.str_of_int max_size_mb ++ "MB)."))
  else ret tt.

(** Lines 134-185. *)
Definition send_video (user_db : option User) (url url_type video_path : string)
    (file_size_mb : Q) : M unit :=
  try_except
    (perform (OpenRb video_path) (open_rb w video_path) ;;
     donation_keyboard <- perform (GetDonationKeyboard (DONATION_URL cfg))
                                  (get_donation_keyboard w (DONATION_URL cfg)) ;;
     (if donation_keyboard : bool then
        perform (ReplyVideo video_path (DOWNLOAD_SUCCESS_MESSAGE cfg) true)
                (reply_video w video_path (DOWNLOAD_SUCCESS_MESSAGE cfg) true)
      else
        perform (ReplyVideo video_path (DOWNLOAD_SUCCESS_MESSAGE cfg) false)
                (reply_video w video_path (DOWNLOAD_SUCCESS_MESSAGE cfg) false)) ;;
     log INFO "Video successfully sent to user" ;;
     try_except
       (record_if_user user_db url url_type (Some file_size_mb) "success" None)
       (fun db_err =>
          Some (log ERROR ("Failed to record successful download in database: "
                           ++ str db_err))))
    (fun e =>
       Some (log ERROR ("Error sending video: " ++ str e) ;;
             try_except
               (record_if_user user_db url url_type (Some file_size_mb) "failed"
                  (Some ("Could not send video: " ++ str e)))
               (fun db_err =>
                  Some (log ERROR ("Failed to record failed download in database: "
                                   ++ str db_err))) ;;
             raise (DownloadError ("Could not send video: " ++ str e)))).

(** Lines 190-199. *)
Definition cleanup (video_path : string) : M unit :=
  try_except
    (perform (OsRemove video_path) (os_remove w video_path) ;;
     let temp_dir := os_path_dirname w video_path in
     (if Str.startswith temp_dir (gettempdir w) then
        perform (OsRmdir temp_dir) (os_rmdir w temp_dir)
      else ret tt) ;;
     log INFO "Temporary files cleaned up successfully")
    (fun e =>
       match e with
       | OSError _ =>
           Some (log WARNING ("Failed to clean up temporary files: " ++ str e))
       | _ => None
       end).

(** Lines 88-199, the body of the outer [try]. *)
Definition download_and_deliver (user_db : option User) (url url_type : string)
  : M unit :=
  log INFO ("Attempting to download from " ++ url_type ++ ": " ++ url) ;;
  video_path <- dispatch url_type url ;;
  match video_path with
  | None =>
      raise (DownloadError ("Couldn't download video from " ++ url_type ++ ": " ++ url))
  | Some video_path =>
      found <- perform (OsPathExists video_path) (Ok (os_path_exists w video_path)) ;;
      if negb found then
        raise (DownloadError "The downloaded file could not be found.")
      else
        file_size <- perform (OsPathGetsize video_path) (os_path_getsize w video_path) ;;
        let file_size_mb := file_size # (1024 * 1024) in
        perform (Logger INFO (DownloadedSize file_size_mb)) (Ok tt) ;;
        size_gate user_db url url_type file_size file_size_mb ;;
        send_video user_db url url_type video_path file_size_mb ;;
        perform ProcessingDelete (processing_delete w) ;;
        cleanup video_path
  end.

(** Lines 201-236. *)
Definition on_download_error (user_db : option User) (url url_type : string)
    (error_message : string) : M unit :=
  log ERROR ("Download error: " ++ error_message) ;;
  try_except
    (record_if_user user_db url url_type None "failed" (Some error_message))
    (fun db_err =>
       Some (log ERROR ("Failed to record download in database: " ++ str db_err))) ;;
  let detailed_message :=
    user_friendly_message (ERROR_MESSAGE cfg) error_message
    ++ Str.nl ++ Str.nl ++ "Details: " ++ error_message in
  perform (EditText detailed_message) (edit_text w detailed_message).

Definition unexpected_reply : string :=
  ERROR_MESSAGE cfg ++ Str.nl ++ Str.nl
  ++ "An unexpected error occurred. Please try again later.".

(** Lines 238-256. *)
Definition on_unexpected_error (user_db : option User) (url url_type : string)
    (e : exn) : M unit :=
  log ERROR ("Unexpected error: " ++ str e) ;;
  try_except
    (record_if_user user_db url
       (if Str.truthy url_type then url_type else "unknown")
       None "failed" (Some ("Unexpected error: " ++ str e)))
    (fun db_err =>
       Some (log ERROR ("Failed to record download in database: " ++ str db_err))) ;;
  perform (EditText unexpected_reply) (edit_text w unexpected_reply).

(** Lines 67-72: [if not url_type:]. *)
Definition rejected (url_type : option string) : bool :=
  match url_type with
  | None => true
  | Some t => negb (Str.truthy t)
  end.

Definition tag (url_type : option string) : string :=
  match url_type with Some t => t | None => EmptyString end.

(** Lines 84-256: the processing message and the outer [try]. *)
Definition process (user_db : option User) (url url_type : string) : M unit :=
  perform (ReplyText (PROCESSING_MESSAGE cfg)) (reply_text w (PROCESSING_MESSAGE cfg)) ;;
  try_except
    (download_and_deliver user_db url url_type)
    (fun e =>
       match e with
       | DownloadError error_message =>
           Some (on_download_error user_db url url_type error_message)
       | _ => Some (on_unexpected_error user_db url url_type e)
       end).

Definition handle_url (update : Update) : M unit :=
  let url := Str.strip (message_text update) in
  log INFO ("Received URL: " ++ url) ;;
  let url_type := get_url_type w url in
  if rejected url_type then
    log INFO ("Invalid URL rejected: " ++ url) ;;
    perform (ReplyText (INVALID_URL_MESSAGE cfg)) (reply_text w (INVALID_URL_MESSAGE cfg))
  else
    let url_type := tag url_type in
    user_db <- resolve_user update ;;
    process user_db url url_type.

End Pipeline.

(* ================================================================== *)
(** ** Observations on the trace of a run *)
(* ================================================================== *)

Definition calls {A} (m : M A) : list call := map ev_call (trace m).

(** The rows the persistence layer stored: the [record_download] calls
    that returned. *)
Fixpoint appended (tr : list event) : list Download :=
  match tr with
  | [] => []
  | {| ev_call := RecordDownload row; ev_raised := false |} :: tr' => row :: appended tr'
  | _ :: tr' => appended tr'
  end.

Definition is_record (c : call) : bool :=
  match c with RecordDownload _ => true | _ => false end.

Definition is_download (c : call) : bool :=
  match c with DownloadVideo _ _ => true | _ => false end.

(** An attempt to relay the file: opening it for the upload, or the
    upload itself. *)
Definition is_relay (c : call) : bool :=
  match c with OpenRb _ | ReplyVideo _ _ _ => true | _ => false end.

Definition is_remove (c : call) : bool :=
  match c with OsRemove _ | OsRmdir _ => true | _ => false end.

(** The texts shown to the user in place of the processing message. *)
Fixpoint edits (cs : list call) : list string :=
  match cs with
  | [] => []
  | EditText t :: cs' => t :: edits cs'
  | _ :: cs' => edits cs'
  end.

Definition is_getsize (c : call) : bool :=
  match c with OsPathGetsize _ => true | _ => false end.

(** The paths whose existence was checked, whose size was asked, and
    which were handed to the relay. *)
Fixpoint exists_checks (cs : list call) : list string :=
  match cs with
  | [] => []
  | OsPathExists p :: cs' => p :: exists_checks cs'
  | _ :: cs' => exists_checks cs'
  end.

Fixpoint size_checks (cs : list call) : list string :=
  match cs with
  | [] => []
  | OsPathGetsize p :: cs' => p :: size_checks cs'
  | _ :: cs' => size_checks cs'
  end.

Fixpoint relayed (cs : list call) : list string :=
  match cs with
  | [] => []
  | OpenRb p :: cs' => p :: relayed cs'
  | ReplyVideo p _ _ :: cs' => p :: relayed cs'
  | _ :: cs' => relayed cs'
  end.

(** The paths removed from the file system: the [os.remove] and
    [os.rmdir] calls that returned. *)
Fixpoint removed (tr : list event) : list string :=
  match tr with
  | [] => []
  | {| ev_call := OsRemove p; ev_raised := false |} :: tr' => p :: removed tr'
  | {| ev_call := OsRmdir p; ev_raised := false |} :: tr' => p :: removed tr'
  | _ :: tr' => removed tr'
  end.

(** The calls made before the first one that satisfies [P]. *)
Fixpoint before_first (P : call -> bool) (cs : list call) : list call :=
  match cs with
  | [] => []
  | c :: cs' => if P c then [] else c :: before_first P cs'
  end.

(* ================================================================== *)
(** ** Values the properties refer to *)
(* ================================================================== *)

(** The tag each branch of the dispatch tests, and the capability it calls. *)
Definition platform_tag (p : platform) : string :=
  match p with
  | youtube => "youtube" | instagram => "instagram" | tiktok => "tiktok"
  | twitter => "twitter" | facebook => "facebook"
  end.

Definition downloader (w : World) (p : platform) : string -> result (option string) :=
  match p with
  | youtube => download_youtube_video w
  | instagram => download_instagram_video w
  | tiktok => download_tiktok_video w
  | twitter => download_twitter_video w
  | facebook => download_facebook_video w
  end.

Definition file_not_found_reply (cfg : Config) : string :=
  ERROR_MESSAGE cfg ++ Str.nl ++ Str.nl
  ++ "Details: The downloaded file could not be found.".

(** The typed failure of a dispatch that matched no downloader, and the
    reply a [DownloadError] produces. *)
Definition no_downloader_error (url_type url : string) : string :=
  "Couldn't download video from " ++ url_type ++ ": " ++ url.

Definition failure_reply (cfg : Config) (error_message : string) : string :=
  user_friendly_message (ERROR_MESSAGE cfg) error_message
  ++ Str.nl ++ Str.nl ++ "Details: " ++ error_message.

Definition failed_row (u : User) (url url_type error_message : string) : Download :=
  {| dl_user_id := user_id u; dl_url := url; dl_source_type := url_type;
     dl_file_size := None; dl_status := "failed";
     dl_error_message := Some error_message |}.

Definition too_large_error : string :=
  "The video is too large to send via Telegram (limit: 50MB).".

Definition too_large_reply : string :=
  too_large_message ++ Str.nl ++ Str.nl ++ "Details: " ++ too_large_error.

(** The row written at the gate (lines 124-131). *)
Definition gate_row (u : User) (url url_type : string) (file_size : Z) : Download :=
  {| dl_user_id := user_id u; dl_url := url; dl_source_type := url_type;
     dl_file_size := Some (file_size # 1048576); dl_status := "failed";
     dl_error_message := Some "Video too large to send (limit: 50MB)" |}.

Definition success_row (u : User) (url url_type : string) (file_size : Z) : Download :=
  {| dl_user_id := user_id u; dl_url := url; dl_source_type := url_type;
     dl_file_size := Some (file_size # 1048576); dl_status := "success";
     dl_error_message := None |}.

Definition send_failed_row (u : User) (url url_type : string) (file_size : Z)
    (e : exn) : Download :=
  {| dl_user_id := user_id u; dl_url := url; dl_source_type := url_type;
     dl_file_size := Some (file_size # 1048576); dl_status := "failed";
     dl_error_message := Some ("Could not send video: " ++ str e) |}.

(* ================================================================== *)
(** ** Concrete worlds *)
(* ================================================================== *)

Module Sample.

Definition cfg : Config :=
  {| DOWNLOAD_SUCCESS_MESSAGE := "Here is your video";
     INVALID_URL_MESSAGE := "Please send a valid video link";
     PROCESSING_MESSAGE := "Processing...";
     ERROR_MESSAGE := "Sorry, the download failed";
     DONATION_URL := "https://example.org/donate" |}.

Definition alice : User :=
  {| user_id := 42; username := Some "alice"; first_name := Some "Alice";
     last_name := None; language_code := Some "en"; is_premium := false |}.

Definition update (text : string) : Update :=
  {| message_text := text; sender_id := 42 |}.

Definition tiktok_url : string := "https://www.tiktok.com/@user/video/123".
Definition video : string := "/tmp/tmpk3v9/video.mp4".

Definition always {A B} (b : B) : A -> B := fun _ => b.

(** A world in which the classifier answers [url_type], the profile
    lookup [user], every downloader [downloaded], the file system
    [found] and [size], the recorder [recorder], the upload [relay] and
    the deletion of the processing message [deleted]; every other call
    succeeds. *)
Definition world (url_type : option string) (user : result (option User))
    (downloaded : result (option string)) (found : bool) (size : result Z)
    (recorder : Download -> result unit) (relay deleted : result unit) : World :=
  {| get_url_type := always url_type;
     get_or_create_user := always user;
     reply_text := always (Ok tt);
     download_youtube_video := always downloaded;
     download_instagram_video := always downloaded;
     download_tiktok_video := always downloaded;
     download_twitter_video := always downloaded;
     download_facebook_video := always downloaded;
     os_path_exists := always found;
     os_path_getsize := always size;
     record_download := recorder;
     open_rb := always (Ok tt);
     get_donation_keyboard := always (Ok true);
     reply_video := fun _ _ _ => relay;
     processing_delete := deleted;
     os_remove := always (Ok tt);
     os_path_dirname := always "/tmp/tmpk3v9";
     gettempdir := "/tmp";
     os_rmdir := always (Ok tt);
     edit_text := always (Ok tt) |}.

Definition MiB : Z := 1024 * 1024.

Definition ok_recorder : Download -> result unit := always (Ok tt).

(** Scenario 7 of the specification: a 3 MB file is delivered. *)
Definition delivered : World :=
  world (Some "tiktok") (Ok (Some alice)) (Ok (Some video)) true (Ok (3 * MiB))
        ok_recorder (Ok tt) (Ok tt).

(** Scenario 8: the downloader reports a private account. *)
Definition private_account : World :=
  world (Some "tiktok") (Ok (Some alice))
        (Raise (DownloadError "This account is private")) false (Ok 0)
        ok_recorder (Ok tt) (Ok tt).

(** Scenario 9: the downloader returns a 60 MB file. *)
Definition oversized : World :=
  world (Some "tiktok") (Ok (Some alice)) (Ok (Some video)) true (Ok (60 * MiB))
        ok_recorder (Ok tt) (Ok tt).

(** The same, with a persistence layer that is down. *)
Definition oversized_recorder_down : World :=
  world (Some "tiktok") (Ok (Some alice)) (Ok (Some video)) true (Ok (60 * MiB))
        (always (Raise (OtherException "database is locked"))) (Ok tt) (Ok tt).

(** The same, with no user profile. *)
Definition oversized_no_user : World :=
  world (Some "tiktok") (Ok None) (Ok (Some video)) true (Ok (60 * MiB))
        ok_recorder (Ok tt) (Ok tt).

(** A file of exactly 50 MiB. *)
Definition at_ceiling : World :=
  world (Some "tiktok") (Ok (Some alice)) (Ok (Some video)) true (Ok (50 * MiB))
        ok_recorder (Ok tt) (Ok tt).

(** The profile lookup fails; the rest succeeds. *)
Definition no_user : World :=
  world (Some "tiktok") (Raise (OtherException "connection refused"))
        (Ok (Some video)) true (Ok (3 * MiB)) ok_recorder (Ok tt) (Ok tt).

(** The relay refuses the upload. *)
Definition send_fails : World :=
  world (Some "tiktok") (Ok (Some alice)) (Ok (Some video)) true (Ok (3 * MiB))
        ok_recorder (Raise (OtherException "Timed out")) (Ok tt).

(** The downloader fails with something that is not a download error. *)
Definition downloader_crashes : World :=
  world (Some "tiktok") (Ok (Some alice))
        (Raise (OtherException "connection reset by peer")) false (Ok 0)
        ok_recorder (Ok tt) (Ok tt).

(** The classifier answers a tag the dispatch does not know. *)
Definition unknown_tag (user : result (option User)) : World :=
  world (Some "vimeo") user (Ok (Some video)) true (Ok (3 * MiB))
        ok_recorder (Ok tt) (Ok tt).

Definition vimeo_url : string := "https://vimeo.com/76979871".

End Sample.

(* ================================================================== *)
(** ** Further observations on the trace of a run *)
(* ================================================================== *)

(** The rows handed to the recorder, stored or not. *)
Fixpoint recorded (cs : list call) : list Download :=
  match cs with
  | [] => []
  | RecordDownload row :: cs' => row :: recorded cs'
  | _ :: cs' => recorded cs'
  end.

(** The uploads attempted: path, caption and whether a keyboard is
    attached. *)
Fixpoint upload_calls (cs : list call) : list (string * string * bool) :=
  match cs with
  | [] => []
  | ReplyVideo p c k :: cs' => (p, c, k) :: upload_calls cs'
  | _ :: cs' => upload_calls cs'
  end.

(** The paths whose upload returned. *)
Fixpoint uploaded (tr : list event) : list string :=
  match tr with
  | [] => []
  | {| ev_call := ReplyVideo p _ _; ev_raised := false |} :: tr' => p :: uploaded tr'
  | _ :: tr' => uploaded tr'
  end.

(** The files and the directories the run asked the file system to
    remove. *)
Fixpoint remove_calls (cs : list call) : list string :=
  match cs with
  | [] => []
  | OsRemove p :: cs' => p :: remove_calls cs'
  | _ :: cs' => remove_calls cs'
  end.

Fixpoint rmdir_calls (cs : list call) : list string :=
  match cs with
  | [] => []
  | OsRmdir d :: cs' => d :: rmdir_calls cs'
  | _ :: cs' => rmdir_calls cs'
  end.

(** The world [w] with other answers of the messaging calls, and with
    another answer of [os.remove]. *)
Definition with_messaging (w : World)
    (reply edit : string -> result unit) : World :=
  {| get_url_type := get_url_type w;
     get_or_create_user := get_or_create_user w;
     reply_text := reply;
     download_youtube_video := download_youtube_video w;
     download_instagram_video := download_instagram_video w;
     download_tiktok_video := download_tiktok_video w;
     download_twitter_video := download_twitter_video w;
     download_facebook_video := download_facebook_video w;
     os_path_exists := os_path_exists w;
     os_path_getsize := os_path_getsize w;
     record_download := record_download w;
     open_rb := open_rb w;
     get_donation_keyboard := get_donation_keyboard w;
     reply_video := reply_video w;
     processing_delete := processing_delete w;
     os_remove := os_remove w;
     os_path_dirname := os_path_dirname w;
     gettempdir := gettempdir w;
     os_rmdir := os_rmdir w;
     edit_text := edit |}.

Definition with_os_remove (w : World) (remove : string -> result unit) : World :=
  {| get_url_type := get_url_type w;
     get_or_create_user := get_or_create_user w;
     reply_text := reply_text w;
     download_youtube_video := download_youtube_video w;
     download_instagram_video := download_instagram_video w;
     download_tiktok_video := download_tiktok_video w;
     download_twitter_video := download_twitter_video w;
     download_facebook_video := download_facebook_video w;
     os_path_exists := os_path_exists w;
     os_path_getsize := os_path_getsize w;
     record_download := record_download w;
     open_rb := open_rb w;
     get_donation_keyboard := get_donation_keyboard w;
     reply_video := reply_video w;
     processing_delete := processing_delete w;
     os_remove := remove;
     os_path_dirname := os_path_dirname w;
     gettempdir := gettempdir w;
     os_rmdir := os_rmdir w;
     edit_text := edit_text w |}.

(* ================================================================== *)
(** ** The commands and the start of the bot (bot.py) *)
(* ================================================================== *)

(** Runs of the functions below: the calls made so far, each with
    whether it raised, and a result. *)
Module Tr.

Definition M (C A : Type) : Type := (list (C * bool) * result A)%type.

Definition ret {C A} (a : A) : M C A := ([], Ok a).

Definition bind {C A B} (m : M C A) (f : A -> M C B) : M C B :=
  match m with
  | (t, Ok a) => let (t', r) := f a in ((t ++ t')%list, r)
  | (t, Raise e) => (t, Raise e)
  end.

(** [try: body except Exception as e: handler e] *)
Definition try_except {C A} (body : M C A) (handler : exn -> M C A) : M C A :=
  match body with
  | (t, Ok a) => (t, Ok a)
  | (t, Raise e) => let (t', r) := handler e in ((t ++ t')%list, r)
  end.

Definition perform {C A} (c : C) (r : result A) : M C A := ([(c, raised r)], r).

Definition calls {C A} (m : M C A) : list C := map fst (fst m).
Definition outcome {C A} (m : M C A) : result A := snd m.

End Tr.

Module Commands.

(** The constants of [config] the commands read besides those of
    [Config]; [BOT_TOKEN] is absent when the environment does not set
    it. *)
Record Texts : Type := {
  WELCOME_MESSAGE : string;
  DONATION_TEXT : string;
  BOT_TOKEN : option string
}.

Inductive callback : Type :=
| start_command_cb | help_command_cb | donate_command_cb
| handle_url_cb | handle_callback_cb.

(** The handlers [run_bot] constructs. *)
Inductive handler : Type :=
| CommandHandler (command : string) (cb : callback)
| MessageHandler_TEXT_not_COMMAND (cb : callback)
| CallbackQueryHandler (cb : callback).

Inductive call : Type :=
| MessageReplyText (text : string) (reply_markup : bool)
| GetKeyboard (url : string)
| LoggerError (s : string)
| LoggerInfo (s : string)
| BuildApplication (token : string)
| AddHandler (h : handler)
| AddErrorHandler
| RunPolling.

(** The answers of the collaborators.  [format_donation_text template url]
    is [template.format(donation_url=url)], which raises on a template
    with an unknown or malformed field. *)
Record World : Type := {
  message_reply_text : string -> bool -> result unit;
  format_donation_text : string -> string -> result string;
  get_keyboard : string -> result bool;
  build_application : string -> result unit;
  add_handler : handler -> result unit;
  add_error_handler : result unit;
  run_polling : result unit
}.

Definition M := Tr.M call.

Section Defs.

Variable cfg : Config.
Variable tx : Texts.
Variable w : World.

(** Lines 37-39 and 41-43. *)
Definition start_command : M unit :=
  Tr.perform (MessageReplyText (WELCOME_MESSAGE tx) false)
             (message_reply_text w (WELCOME_MESSAGE tx) false).

Definition help_command : M unit :=
  Tr.perform (MessageReplyText (WELCOME_MESSAGE tx) false)
             (message_reply_text w (WELCOME_MESSAGE tx) false).

(** Lines 45-59. *)
Definition donate_command : M unit :=
  Tr.bind ([], format_donation_text w (DONATION_TEXT tx) (DONATION_URL cfg))
    (fun donation_message =>
       Tr.bind (Tr.perform (GetKeyboard (DONATION_URL cfg))
                           (get_keyboard w (DONATION_URL cfg)))
         (fun donation_keyboard : bool =>
            if donation_keyboard then
              Tr.perform (MessageReplyText donation_message true)
                         (message_reply_text w donation_message true)
            else
              Tr.perform (MessageReplyText donation_message false)
                         (message_reply_text w donation_message false))).

(** Lines 271-293. *)
Definition run_bot : M unit :=
  match BOT_TOKEN tx with
  | None | Some EmptyString =>
      Tr.perform (LoggerError "TELEGRAM_BOT_TOKEN environment variable is not set!")
                 (Ok tt)
  | Some token =>
      let register h := Tr.perform (AddHandler h) (add_handler w h) in
      Tr.bind (Tr.perform (BuildApplication token) (build_application w token)) (fun _ =>
      Tr.bind (register (CommandHandler "start" start_command_cb)) (fun _ =>
      Tr.bind (register (CommandHandler "help" help_command_cb)) (fun _ =>
      Tr.bind (register (CommandHandler "donate" donate_command_cb)) (fun _ =>
      Tr.bind (register (MessageHandler_TEXT_not_COMMAND handle_url_cb)) (fun _ =>
      Tr.bind (register (CallbackQueryHandler handle_callback_cb)) (fun _ =>
      Tr.bind (Tr.perform AddErrorHandler (add_error_handler w)) (fun _ =>
      Tr.bind (Tr.perform (LoggerInfo "Starting bot...") (Ok tt)) (fun _ =>
      Tr.perform RunPolling (run_polling w)))))))))
  end.

End Defs.

Definition is_reply (c : call) : bool :=
  match c with MessageReplyText _ _ => true | _ => false end.

Definition is_polling (c : call) : bool :=
  match c with RunPolling => true | _ => false end.

(** The handlers a bot with a token registers, in this order. *)
Definition registrations : list call :=
  [ AddHandler (CommandHandler "start" start_command_cb);
    AddHandler (CommandHandler "help" help_command_cb);
    AddHandler (CommandHandler "donate" donate_command_cb);
    AddHandler (MessageHandler_TEXT_not_COMMAND handle_url_cb);
    AddHandler (CallbackQueryHandler handle_callback_cb);
    AddErrorHandler ].

End Commands.

(* ================================================================== *)
(** ** The database set-up (models.py, [init_db]) *)
(* ================================================================== *)

Module Models.

(** The values a configuration holds: [None], a Boolean, an integer, a
    string, or a dictionary of such values. *)
Inductive atom : Type :=
| ANone
| ABool (b : bool)
| AInt (n : Z)
| AStr (s : string).

Inductive pyval : Type :=
| Atom (a : atom)
| Dict (items : list (string * atom)).

(** The truth value of [v] in a condition. *)
Definition truthy (v : pyval) : bool :=
  match v with
  | Atom ANone => false
  | Atom (ABool b) => b
  | Atom (AInt n) => negb (n =? 0)%Z
  | Atom (AStr s) => Str.truthy s
  | Dict [] => false
  | Dict (_ :: _) => true
  end.

(** [app.config], a dictionary keyed by strings. *)
Definition config : Type := string -> option pyval.

(** [c.get(k)] *)
Definition get (c : config) (k : string) : pyval :=
  match c k with Some v => v | None => Atom ANone end.

(** [c[k] = v] *)
Definition set (c : config) (k : string) (v : pyval) : config :=
  fun k' => if (k' =? k)%string then Some v else c k'.

Inductive call : Type :=
| InitApp
| CreateAll
| Print (s : string).

(** The environment and the database extension.  [db_init_app c] is
    what [db.init_app(app)] does on an application configured as [c]: the
    configuration it leaves (it writes defaults of its own into
    [app.config]) and whether it raised.  [db_create_all c] is the answer
    of [db.create_all()] under the configuration [c].  Entering the
    application context is taken not to raise. *)
Record World : Type := {
  environ : string -> option string;
  db_init_app : config -> config * result unit;
  db_create_all : config -> result unit
}.

(** [os.environ.get(k)] *)
Definition environ_get (w : World) (k : string) : pyval :=
  match environ w k with Some s => Atom (AStr s) | None => Atom ANone end.

Definition engine_options : pyval :=
  Dict [("pool_recycle", AInt 300); ("pool_pre_ping", ABool true)].

(** Lines 18-23: the configuration after the first [if], which is the
    one handed to [db.init_app]. *)
Definition configure (w : World) (c : config) : config :=
  if negb (truthy (get c "SQLALCHEMY_DATABASE_URI")) then
    set (set c "SQLALCHEMY_DATABASE_URI" (environ_get w "DATABASE_URL"))
        "SQLALCHEMY_ENGINE_OPTIONS" engine_options
  else c.

(** Lines 16-35: the configuration [init_db] leaves and its run. *)
Definition init_db (w : World) (c : config) : config * Tr.M call unit :=
  let c1 := configure w c in
  let c2 := fst (db_init_app w c1) in
  (c2,
   Tr.bind (Tr.perform InitApp (snd (db_init_app w c1))) (fun _ =>
   Tr.try_except
     (Tr.perform CreateAll (db_create_all w c2))
     (fun e => Tr.perform (Print ("Note: " ++ str e)) (Ok tt)))).

(** [db.init_app] keeps the database URI and the engine options it finds
    set in [c]. *)
Definition keeps_database_settings (w : World) (c : config) : Prop :=
  forall k v,
    In k ["SQLALCHEMY_DATABASE_URI"; "SQLALCHEMY_ENGINE_OPTIONS"] ->
    c k = Some v -> fst (db_init_app w c) k = Some v.

(** [c.setdefault(k, v)] *)
Definition setdefault (c : config) (k : string) (v : pyval) : config :=
  match c k with Some _ => c | None => set c k v end.

End Models.

(* ================================================================== *)
(** ** Further concrete worlds *)
(* ================================================================== *)

Module Cases.

(** The classifier answers the empty string. *)
Definition empty_tag : World :=
  Sample.world (Some "") (Ok (Some Sample.alice)) (Ok (Some Sample.video)) true
               (Ok 1) Sample.ok_recorder (Ok tt) (Ok tt).

(** The chat cannot be written to. *)
Definition chat_closed : World :=
  with_messaging Sample.delivered
    (Sample.always (Raise (OtherException "Forbidden: bot was blocked by the user")))
    (Sample.always (Ok tt)).

(** The downloaded file vanishes before its size is read. *)
Definition file_vanishes : World :=
  Sample.world (Some "tiktok") (Ok (Some Sample.alice)) (Ok (Some Sample.video)) true
               (Raise (OSError "No such file or directory")) Sample.ok_recorder
               (Ok tt) (Ok tt).

(** The delivered file cannot be removed. *)
Definition remove_denied : World :=
  with_os_remove Sample.delivered (Sample.always (Raise (OSError "Permission denied"))).

(** A file is delivered while the persistence layer is down. *)
Definition delivered_recorder_down : World :=
  Sample.world (Some "tiktok") (Ok (Some Sample.alice)) (Ok (Some Sample.video)) true
               (Ok (3 * Sample.MiB))
               (Sample.always (Raise (OtherException "database is locked")))
               (Ok tt) (Ok tt).

Definition delivered_row : Download :=
  {| dl_user_id := 42; dl_url := Sample.tiktok_url; dl_source_type := "tiktok";
     dl_file_size := Some (3145728 # 1048576); dl_status := "success";
     dl_error_message := None |}.

(** A database extension that fills in defaults and succeeds, in an
    environment that sets DATABASE_URL. *)
Definition database : Models.World :=
  {| Models.environ :=
       fun k => if (k =? "DATABASE_URL")%string then Some "postgresql://db/bot" else None;
     Models.db_init_app :=
       fun c =>
         (Models.setdefault
            (Models.setdefault c "SQLALCHEMY_ENGINE_OPTIONS" (Models.Dict []))
            "SQLALCHEMY_TRACK_MODIFICATIONS" (Models.Atom (Models.ABool false)),
          Ok tt);
     Models.db_create_all := Sample.always (Ok tt) |}.

Definition empty_config : Models.config := fun _ => None.

End Cases.

(* ================================================================== *)
(** ** The model on concrete inputs *)
(* ================================================================== *)

Example strip_example :
  Str.strip ("  https://youtu.be/x " ++ Str.nl) = "https://youtu.be/x".
Proof. reflexivity. Qed.

Example lower_example : Str.lower "Is PRIVATE" = "is private".
Proof. reflexivity. Qed.

Example str_of_int_example : Str.str_of_int 50 = "50".
Proof. reflexivity. Qed.

Example scenario_delivered :
  calls (handle_url Sample.cfg Sample.delivered (Sample.update Sample.tiktok_url))
  = [ Logger INFO (Text "Received URL: https://www.tiktok.com/@user/video/123");
      GetOrCreateUser;
      ReplyText "Processing...";
      Logger INFO (Text "Attempting to download from tiktok: https://www.tiktok.com/@user/video/123");
      DownloadVideo tiktok Sample.tiktok_url;
      OsPathExists Sample.video;
      OsPathGetsize Sample.video;
      Logger INFO (DownloadedSize (3145728 # 1048576));
      OpenRb Sample.video;
      GetDonationKeyboard "https://example.org/donate";
      ReplyVideo Sample.video "Here is your video" true;
      Logger INFO (Text "Video successfully sent to user");
      RecordDownload {| dl_user_id := 42; dl_url := Sample.tiktok_url;
                        dl_source_type := "tiktok";
                        dl_file_size := Some (3145728 # 1048576);
                        dl_status := "success"; dl_error_message := None |};
      ProcessingDelete;
      OsRemove Sample.video;
      OsRmdir "/tmp/tmpk3v9";
      Logger INFO (Text "Temporary files cleaned up successfully") ]
  /\ outcome (handle_url Sample.cfg Sample.delivered (Sample.update Sample.tiktok_url)) = Ok tt.
Proof. split; reflexivity. Qed.

(* ================================================================== *)
(** ** The failure classifier *)
(* ================================================================== *)

Section StringFacts.

Lemma prefix_app (p s : string) : String.prefix p (p ++ s) = true.
Proof.
  induction p as [|c p IH]; simpl.
  - destruct s; reflexivity.
  - destruct (ascii_dec c c) as [_|Hne]; [exact IH | contradiction].
Qed.

Lemma str_in_prefix (pat s : string) :
  String.prefix pat s = true -> Str.str_in pat s = true.
Proof.
  intros H. destruct s; cbn [Str.str_in]; now rewrite H.
Qed.

Lemma str_in_app (pat pre post : string) :
  Str.str_in pat (pre ++ pat ++ post) = true.
Proof.
  induction pre as [|c pre IH].
  - apply str_in_prefix. exact (prefix_app pat post).
  - change (String c pre ++ pat ++ post) with (String c (pre ++ pat ++ post)).
    cbn [Str.str_in]. rewrite IH.
    destruct (String.prefix pat (String c (pre ++ pat ++ post))); reflexivity.
Qed.

Lemma prefix_split (p s : string) :
  String.prefix p s = true -> exists post, s = p ++ post.
Proof.
  revert s. induction p as [|c p IH]; intros s H.
  - exists s. reflexivity.
  - destruct s as [|d s]; simpl in H; [discriminate|].
    destruct (ascii_dec c d) as [->|]; [|discriminate].
    destruct (IH s H) as [post ->]. exists post. reflexivity.
Qed.

(** [pat in s] holds exactly when [s] is some text, [pat], some text. *)
Lemma str_in_spec (pat s : string) :
  Str.str_in pat s = true <-> exists pre post, s = pre ++ pat ++ post.
Proof.
  split.
  - induction s as [|c s IH]; cbn [Str.str_in].
    + destruct (String.prefix pat "") eqn:E; [|discriminate].
      intros _. destruct (prefix_split _ _ E) as [post Hp].
      exists "", post. exact Hp.
    + destruct (String.prefix pat (String c s)) eqn:E.
      * intros _. destruct (prefix_split _ _ E) as [post Hp].
        exists "", post. exact Hp.
      * intros H. destruct (IH H) as (pre & post & ->).
        exists (String c pre), post. reflexivity.
  - intros (pre & post & ->). apply str_in_app.
Qed.

Lemma lower_app (s t : string) : Str.lower (s ++ t) = Str.lower s ++ Str.lower t.
Proof.
  induction s as [|c s IH]; simpl; [reflexivity | now rewrite IH].
Qed.

Lemma lower_char_idem (c : ascii) : Str.lower_char (Str.lower_char c) = Str.lower_char c.
Proof.
  destruct c as [[] [] [] [] [] [] [] []]; reflexivity.
Qed.

Lemma lower_idem (s : string) : Str.lower (Str.lower s) = Str.lower s.
Proof.
  induction s as [|c s IH]; simpl; [reflexivity|].
  now rewrite lower_char_idem, IH.
Qed.

End StringFacts.

(** The [if]/[elif] chain of the source is the first-match search over
    the ordered pattern list. *)
Lemma user_friendly_message_first_match (fallback error_message : string) :
  user_friendly_message fallback error_message = classify_message fallback error_message.
Proof.
  unfold user_friendly_message, classify_message, patterns. simpl.
  repeat match goal with
         | |- context [if ?b then _ else _] => destruct b; try reflexivity
         end.
Qed.

(** A keyword written in any letter case matches. *)
Lemma keyword_found (kw pre word post : string) :
  Str.lower word = kw -> Str.str_in kw (Str.lower (pre ++ word ++ post)) = true.
Proof.
  intros <-. rewrite !lower_app. apply str_in_app.
Qed.

(** C5, as the code has it.  The classifier is a total function of the
    error string; it is the first-match search over the ordered keyword
    list, case-insensitive, with the generic fallback when no keyword
    occurs.  An error string containing "is private" in any letter case
    yields the private-account template.  The too-large template is
    selected by the keyword "is too large" (not by "too large" alone), and
    only when "is private" does not occur earlier in the order. *)
Theorem failure_classifier_first_match (fallback error_message : string) :
  user_friendly_message fallback error_message = classify_message fallback error_message
  /\ (In (user_friendly_message fallback error_message)
         (fallback :: map snd patterns))
  /\ (forall pre word post,
        error_message = pre ++ word ++ post -> Str.lower word = "is private" ->
        user_friendly_message fallback error_message = private_account_message)
  /\ (forall pre word post,
        error_message = pre ++ word ++ post -> Str.lower word = "is too large" ->
        Str.str_in "is private" (Str.lower error_message) = false ->
        user_friendly_message fallback error_message = too_large_message)
  /\ ((forall p, In p patterns -> Str.str_in (fst p) (Str.lower error_message) = false) ->
      user_friendly_message fallback error_message = fallback)
  /\ (forall kw template rest earlier,
        patterns = (earlier ++ (kw, template) :: rest)%list ->
        Str.str_in kw (Str.lower error_message) = true ->
        (forall p, In p earlier -> Str.str_in (fst p) (Str.lower error_message) = false) ->
        user_friendly_message fallback error_message = template).
Proof.
  split; [apply user_friendly_message_first_match|].
  split.
  { unfold user_friendly_message.
    repeat match goal with
           | |- context [if ?b then _ else _] => destruct b
           end; simpl; tauto. }
  split.
  { intros pre word post -> Hw. unfold user_friendly_message.
    now rewrite (keyword_found _ pre word post Hw). }
  split.
  { intros pre word post -> Hw Hpriv. unfold user_friendly_message.
    now rewrite Hpriv, (keyword_found _ pre word post Hw). }
  split.
  { intros Hnone. rewrite user_friendly_message_first_match.
    unfold classify_message.
    destruct (find _ patterns) as [p|] eqn:E; [|reflexivity].
    apply find_some in E. destruct E as [Hin Hp].
    rewrite (Hnone p Hin) in Hp. discriminate. }
  intros kw template rest earlier Hsplit Hkw Hearlier.
  rewrite user_friendly_message_first_match. unfold classify_message.
  rewrite Hsplit. clear Hsplit.
  induction earlier as [|q earlier IH]; simpl.
  - now rewrite Hkw.
  - rewrite (Hearlier q (or_introl eq_refl)). apply IH.
    intros p Hp. apply Hearlier. now right.
Qed.

(** C5, as stated, fails: "too large" occurs in this error string, and
    the classifier answers the generic fallback, not the too-large
    template. *)
Lemma too_large_keyword_counterexample :
  Str.str_in "too large" (Str.lower "File too large") = true
  /\ user_friendly_message "Sorry, the download failed" "File too large"
     = "Sorry, the download failed"
  /\ user_friendly_message "Sorry, the download failed" "File too large"
     <> too_large_message.
Proof.
  repeat split; try reflexivity. vm_compute. discriminate.
Qed.

Arguments user_friendly_message : simpl never.
Arguments Str.strip : simpl never.
Arguments Str.str_of_int : simpl never.
Arguments String.append : simpl never.

(* ================================================================== *)
(** ** The pipeline *)
(* ================================================================== *)

(** The dispatch calls the one downloader whose tag is [url_type], or
    none at all. *)
Lemma dispatch_shape (w : World) (url_type url : string) :
  (exists p, url_type = platform_tag p
             /\ dispatch w url_type url
                = ([{| ev_call := DownloadVideo p url;
                       ev_raised := raised (downloader w p url) |}],
                   downloader w p url))
  \/ ((forall p, url_type <> platform_tag p)
      /\ dispatch w url_type url = ([], Ok None)).
Proof.
  unfold dispatch.
  destruct (String.eqb_spec url_type "youtube") as [->|H1];
    [left; exists youtube; split; reflexivity|].
  destruct (String.eqb_spec url_type "instagram") as [->|H2];
    [left; exists instagram; split; reflexivity|].
  destruct (String.eqb_spec url_type "tiktok") as [->|H3];
    [left; exists tiktok; split; reflexivity|].
  destruct (String.eqb_spec url_type "twitter") as [->|H4];
    [left; exists twitter; split; reflexivity|].
  destruct (String.eqb_spec url_type "facebook") as [->|H5];
    [left; exists facebook; split; reflexivity|].
  right. split; [|reflexivity]. intros []; assumption.
Qed.

Ltac unfold_run :=
  unfold calls, trace, outcome, handle_url, process, download_and_deliver,
    on_download_error, on_unexpected_error, send_video, size_gate, cleanup,
    record_if_user, resolve_user, log, try_except, bind, perform,
    ret, raise in *.

(** Case analysis on the answer a collaborator gives: the innermost
    scrutinee the goal is stuck on. *)
Ltac case_stuck :=
  match goal with
  | |- context [match ?x with _ => _ end] =>
      lazymatch x with
      | context [match _ with _ => _ end] => fail
      | dispatch ?w ?t ?u =>
          let E := fresh "Edispatch" in
          destruct (dispatch_shape w t u) as [(? & _ & E)|(_ & E)];
          rewrite E in *; clear E; cbn [fst snd] in *; try discriminate
      | _ =>
          first [ match goal with
                  | H : ?y = _ |- _ =>
                      lazymatch x with context [y] => rewrite H end
                  | H : forall row, record_download _ row = _ |- _ =>
                      lazymatch x with record_download _ _ => rewrite H end
                  end
                | destruct x eqn:? ]
      end
  end.

Ltac run_cases := repeat (simpl; case_stuck).

(** Case analysis on a whole run: the run is named, its defining equation
    is split according to the answers of the collaborators, and the
    resulting trace and outcome are substituted in the goal. *)
Ltac analyse m :=
  let run := fresh "run" in
  let E := fresh "Erun" in
  remember m as run eqn:E; revert E; unfold_run; run_cases; intros ->; simpl.

Ltac pick_in :=
  repeat match goal with
         | H : In _ (_ :: _) |- _ => destruct H as [H|H]
         | H : In _ [] |- _ => destruct H
         | H : _ \/ _ |- _ => destruct H as [H|H]
         | H : False |- _ => destruct H
         end.

(** The last step on one branch of a run: equations between answers are
    turned into substitutions, impossible branches are closed. *)
Ltac leaf :=
  intros;
  repeat match goal with
         | H : Ok _ = Ok _ |- _ => injection H as H
         | H : Raise _ = Raise _ |- _ => injection H as H
         | H : Some _ = Some _ |- _ => injection H as H
         | H : _ = ?v |- _ => is_var v; subst v
         | H : ?v = _ |- _ => is_var v; subst v
         end;
  try discriminate;
  first [ reflexivity
        | eexists; reflexivity
        | match goal with
          | H : forall msg, DownloadError _ <> DownloadError msg |- _ =>
              exfalso; eapply H; reflexivity
          | H : os_path_exists _ _ = _ |- _ => rewrite H in *; discriminate
          end
        | idtac ].

Ltac in_list := simpl; repeat (first [left; reflexivity | right]).

Lemma gtb_false_le (a b : Z) : (a >? b) = false -> a <= b.
Proof. intros H. destruct (Z.gtb_spec a b); [discriminate | lia]. Qed.

Lemma gtb_true_gt (a b : Z) : (a >? b) = true -> a > b.
Proof. intros H. destruct (Z.gtb_spec a b); [lia | discriminate]. Qed.

Lemma gt_gtb_true (a b : Z) : a > b -> (a >? b) = true.
Proof. intros H. destruct (Z.gtb_spec a b); [reflexivity | lia]. Qed.

Lemma le_gtb_false (a b : Z) : a <= b -> (a >? b) = false.
Proof. intros H. destruct (Z.gtb_spec a b); [lia | reflexivity]. Qed.

(** C7. The delivery gate runs before the relay.  In every run, a path
    handed to the relay (opened for the upload, or uploaded) is one whose
    existence check answered true and whose size check answered a size
    within 50 MiB, and both checks were made before the first relay
    attempt, the existence check before the size check.  When the
    downloaded path does not exist the run fails with the file-not-found
    error, without asking for the size and without any relay attempt; when
    the size exceeds 50 MiB there is no relay attempt either. *)
Theorem delivery_gate_precedes_relay (cfg : Config) (w : World) (update : Update) :
  let cs := calls (handle_url cfg w update) in
  (forall video_path, In video_path (relayed cs) ->
     os_path_exists w video_path = true
     /\ (exists file_size,
           os_path_getsize w video_path = Ok file_size
           /\ file_size <= 50 * 1024 * 1024)
     /\ In video_path (exists_checks (before_first is_getsize cs))
     /\ In video_path (size_checks (before_first is_relay cs)))
  /\ (forall video_path,
        In video_path (exists_checks cs) -> os_path_exists w video_path = false ->
        relayed cs = [] /\ size_checks cs = []
        /\ edits cs = [file_not_found_reply cfg])
  /\ (forall video_path file_size,
        In video_path (size_checks cs) ->
        os_path_getsize w video_path = Ok file_size ->
        file_size > 50 * 1024 * 1024 ->
        relayed cs = []).
Proof.
  intros cs. subst cs. analyse (handle_url cfg w update).
  all: idtac; (split; [|split]).
  all: idtac;
    try (intros p Hin; pick_in; subst p;
         (split; [apply negb_false_iff; assumption|]);
         (split; [eexists; split; [eassumption | apply gtb_false_le; assumption]|]);
         split; in_list).
  all: idtac;
    try (intros p Hin Hfalse; pick_in; subst p;
         first [ rewrite Hfalse in *; discriminate
               | repeat split; reflexivity ]).
  all: idtac;
    try (intros p n Hin Hsize Hgt; first [reflexivity|
         pick_in; subst p;
         match goal with
         | H : os_path_getsize _ _ = _ |- _ => rewrite H in Hsize; injection Hsize as <-
         end;
         match goal with
         | H : (_ >? _) = false |- _ => apply gtb_false_le in H; lia
         end ]).
Qed.

Lemma handle_url_rejected (cfg : Config) (w : World) (update : Update) :
  let url := Str.strip (message_text update) in
  rejected (get_url_type w url) = true ->
  handle_url cfg w update
  = ([ {| ev_call := Logger INFO (Text ("Received URL: " ++ url)); ev_raised := false |};
       {| ev_call := Logger INFO (Text ("Invalid URL rejected: " ++ url));
          ev_raised := false |};
       {| ev_call := ReplyText (INVALID_URL_MESSAGE cfg);
          ev_raised := raised (reply_text w (INVALID_URL_MESSAGE cfg)) |} ],
     reply_text w (INVALID_URL_MESSAGE cfg)).
Proof.
  intros url Hrej. unfold handle_url. fold url. rewrite Hrej. reflexivity.
Qed.

(** C8. When the URL classifier returns [None] for the inbound text,
    [handle_url] replies with the fixed rejection message and ends: the
    calls of the run are two log lines and that reply, so no downloader
    is invoked and no outcome record is appended. *)
Theorem unrecognized_url_is_rejected (cfg : Config) (w : World) (update : Update) :
  let url := Str.strip (message_text update) in
  get_url_type w url = None ->
  let run := handle_url cfg w update in
  calls run
  = [ Logger INFO (Text ("Received URL: " ++ url));
      Logger INFO (Text ("Invalid URL rejected: " ++ url));
      ReplyText (INVALID_URL_MESSAGE cfg) ]
  /\ outcome run = reply_text w (INVALID_URL_MESSAGE cfg)
  /\ filter is_download (calls run) = []
  /\ filter is_record (calls run) = []
  /\ appended (trace run) = [].
Proof.
  intros url Hnone run. subst run.
  rewrite handle_url_rejected by (fold url; rewrite Hnone; reflexivity).
  repeat split.
Qed.

(** C9. When the profile lookup at the start of a run raises or returns
    no profile, the lookup itself ends normally with a null user
    reference, and the run goes on with it: after the log line and the
    lookup, the run is the rest of the pipeline (processing message,
    download, gate, delivery) on the null reference.  In particular, when
    the download, the gate and the upload succeed, the video is delivered,
    and nothing is recorded for the null reference. *)
Theorem user_resolution_failure_degrades (cfg : Config) (w : World) (update : Update) :
  let url := Str.strip (message_text update) in
  let url_type := tag (get_url_type w url) in
  rejected (get_url_type w url) = false ->
  (get_or_create_user w update = Ok None
   \/ exists e, get_or_create_user w update = Raise e) ->
  let run := handle_url cfg w update in
  outcome (resolve_user w update) = Ok None
  /\ trace run
     = ({| ev_call := Logger INFO (Text ("Received URL: " ++ url)); ev_raised := false |}
        :: trace (resolve_user w update) ++ trace (process cfg w None url url_type))%list
  /\ outcome run = outcome (process cfg w None url url_type)
  /\ filter is_record (calls run) = []
  /\ (forall video_path file_size keyboard,
        reply_text w (PROCESSING_MESSAGE cfg) = Ok tt ->
        outcome (dispatch w url_type url) = Ok (Some video_path) ->
        os_path_exists w video_path = true ->
        os_path_getsize w video_path = Ok file_size ->
        file_size <= 50 * 1024 * 1024 ->
        open_rb w video_path = Ok tt ->
        get_donation_keyboard w (DONATION_URL cfg) = Ok keyboard ->
        reply_video w video_path (DOWNLOAD_SUCCESS_MESSAGE cfg) keyboard = Ok tt ->
        In {| ev_call := ReplyVideo video_path (DOWNLOAD_SUCCESS_MESSAGE cfg) keyboard;
              ev_raised := false |} (trace run)
        /\ edits (before_first is_relay (calls run)) = []).
Proof.
  intros url url_type Hclass Huser run.
  assert (Hres : exists tr, resolve_user w update = (tr, Ok None)).
  { unfold resolve_user, try_except, bind, perform, log, ret.
    destruct Huser as [H|[e H]]; rewrite H; simpl; eexists; reflexivity. }
  destruct Hres as [tr Hres].
  assert (Hrun : run = bind (log INFO ("Received URL: " ++ url))
                         (fun _ => bind (resolve_user w update)
                                     (fun user_db => process cfg w user_db url url_type))).
  { subst run. unfold handle_url. fold url. rewrite Hclass. reflexivity. }
  split; [rewrite Hres; reflexivity|].
  split; [rewrite Hrun, Hres; unfold bind, log, perform, trace; simpl;
          destruct (process cfg w None url url_type); reflexivity|].
  split; [rewrite Hrun, Hres; unfold bind, log, perform, outcome; simpl;
          destruct (process cfg w None url url_type); reflexivity|].
  split.
  - subst run. clear Hrun Hres tr. revert Hclass. subst url_type url.
    destruct Huser as [Huser|[e Huser]]; intros Hclass;
      analyse (handle_url cfg w update); reflexivity.
  - intros video_path file_size keyboard Hreply Hdl Hex Hsz Hle Hopen Hkb Hsend.
    subst run. clear Hrun Hres tr. subst url_type url.
    assert (Hgt : (file_size >? 52428800) = false).
    { destruct (Z.gtb_spec file_size 52428800); [lia | reflexivity]. }
    destruct Huser as [Huser|[e Huser]];
      analyse (handle_url cfg w update);
      (split; [in_list | reflexivity]).
Qed.

(** C10, as the code has it.  When the classifier returns a non-empty tag
    that is none of the five dispatched ones and the processing message
    was sent, no downloader is invoked, the video path stays unset and the
    run ends as the typed download failure "Couldn't download video from
    ...": the reply carries that detail, and the only exception that can
    leave [handle_url] is one raised by the edit of the processing message
    itself.  The failed outcome is handed to the recorder exactly when a
    user profile was resolved, and it is stored when the recorder returns;
    for a null user reference nothing is recorded. *)
Theorem unknown_tag_is_download_failure
    (cfg : Config) (w : World) (update : Update) (url_type : string) :
  let url := Str.strip (message_text update) in
  get_url_type w url = Some url_type ->
  Str.truthy url_type = true ->
  (forall p, url_type <> platform_tag p) ->
  reply_text w (PROCESSING_MESSAGE cfg) = Ok tt ->
  let run := handle_url cfg w update in
  let error_message := no_downloader_error url_type url in
  dispatch w url_type url = ([], Ok None)
  /\ filter is_download (calls run) = []
  /\ relayed (calls run) = []
  /\ edits (calls run) = [failure_reply cfg error_message]
  /\ outcome run = edit_text w (failure_reply cfg error_message)
  /\ match get_or_create_user w update with
     | Ok (Some u) =>
         filter is_record (calls run)
         = [RecordDownload (failed_row u url url_type error_message)]
         /\ (record_download w (failed_row u url url_type error_message) = Ok tt ->
             appended (trace run) = [failed_row u url url_type error_message])
     | _ => filter is_record (calls run) = [] /\ appended (trace run) = []
     end.
Proof.
  intros url Htype Htruthy Hother Hreply run error_message.
  assert (Hdispatch : dispatch w url_type url = ([], Ok None)).
  { destruct (dispatch_shape w url_type url) as [(p & Hp & _)|[_ E]]; [|exact E].
    exfalso. exact (Hother p Hp). }
  split; [exact Hdispatch|].
  subst run error_message. unfold failed_row, failure_reply, no_downloader_error.
  subst url.
  remember (handle_url cfg w update) as run eqn:Erun. revert Erun.
  unfold_run. rewrite Htype. unfold rejected, tag. rewrite Htruthy.
  cbn [negb]. rewrite Hdispatch, Hreply.
  destruct (get_or_create_user w update) as [[u|]|e] eqn:Huser; simpl.
  - destruct (record_download w _) as [[]|e] eqn:Hrec; simpl; intros ->; simpl;
      repeat split; intros; congruence.
  - intros ->. simpl. repeat split.
  - intros ->. simpl. repeat split.
Qed.

(** C3, as the code has it.  A downloaded file whose size is strictly
    greater than 50 MiB is never relayed.  For a resolved user profile the
    rejection is handed to the recorder, first of all rows of the run,
    with the measured size in MB, not a null; when that call of the
    recorder returns, the row is stored first, the body of the run fails
    with the too-large error and the user sees the too-large template
    followed by that error.  For a null user reference the run fails with
    the too-large error and shows the same reply, and nothing is
    recorded. *)
Theorem oversized_file_is_rejected
    (cfg : Config) (w : World) (update : Update) (video_path : string) (file_size : Z) :
  let url := Str.strip (message_text update) in
  let url_type := tag (get_url_type w url) in
  rejected (get_url_type w url) = false ->
  reply_text w (PROCESSING_MESSAGE cfg) = Ok tt ->
  outcome (dispatch w url_type url) = Ok (Some video_path) ->
  os_path_exists w video_path = true ->
  os_path_getsize w video_path = Ok file_size ->
  file_size > 50 * 1024 * 1024 ->
  let run := handle_url cfg w update in
  relayed (calls run) = []
  /\ match get_or_create_user w update with
     | Ok (Some u) =>
         hd_error (recorded (calls run)) = Some (gate_row u url url_type file_size)
         /\ (record_download w (gate_row u url url_type file_size) = Ok tt ->
             outcome (download_and_deliver cfg w (Some u) url url_type)
             = Raise (DownloadError too_large_error)
             /\ edits (calls run) = [too_large_reply]
             /\ recorded (calls run)
                = [gate_row u url url_type file_size;
                   failed_row u url url_type too_large_error]
             /\ appended (trace run)
                = gate_row u url url_type file_size
                  :: (if raised (record_download w
                                   (failed_row u url url_type too_large_error))
                      then [] else [failed_row u url url_type too_large_error]))
     | _ =>
         outcome (download_and_deliver cfg w None url url_type)
         = Raise (DownloadError too_large_error)
         /\ edits (calls run) = [too_large_reply]
         /\ recorded (calls run) = []
         /\ appended (trace run) = []
     end.
Proof.
  intros url url_type Hclass Hreply Hdl Hex Hsz Hlarge run.
  assert (Hgt : (file_size >? 52428800) = true).
  { destruct (Z.gtb_spec file_size 52428800); [reflexivity | lia]. }
  subst run url_type url. unfold gate_row, failed_row.
  change too_large_error
    with ("The video is too large to send via Telegram (limit: "
          ++ Str.str_of_int max_size_mb ++ "MB).").
  change (Some "Video too large to send (limit: 50MB)")
    with (Some ("Video too large to send (limit: "
                ++ Str.str_of_int max_size_mb ++ "MB)")).
  destruct (get_or_create_user w update) as [[u|]|e] eqn:Huser.
  - split; [|split].
    + analyse (handle_url cfg w update); reflexivity.
    + analyse (handle_url cfg w update); reflexivity.
    + intros Hrec. analyse (handle_url cfg w update); repeat split.
  - analyse (handle_url cfg w update); repeat split.
  - analyse (handle_url cfg w update); repeat split.
Qed.

Lemma classified_tag_truthy (url_type : option string) :
  rejected url_type = false -> Str.truthy (tag url_type) = true.
Proof.
  destruct url_type as [t|]; simpl; [|discriminate].
  intros H. now apply negb_false_iff in H.
Qed.

(** C1, as the code has it.  Take a run whose URL is classified and whose
    processing message was sent.  The recorder is called only for a
    resolved user profile: with a null user reference no record is
    written.  With a resolved profile and a recorder that does not fail,
    every run stores at least one record, each for that user, URL and
    platform tag; and the run stores exactly one record when it succeeds
    (the success row), when the download fails (the downloader raises a
    download error, the dispatch yields no path, or the file is missing:
    the failed row with that error), and when the downloader fails
    unexpectedly (the failed row with the unexpected error). *)
Theorem outcome_recorded_for_resolved_user
    (cfg : Config) (w : World) (update : Update) :
  let url := Str.strip (message_text update) in
  let url_type := tag (get_url_type w url) in
  rejected (get_url_type w url) = false ->
  reply_text w (PROCESSING_MESSAGE cfg) = Ok tt ->
  let run := handle_url cfg w update in
  match get_or_create_user w update with
  | Ok (Some u) =>
      (forall row, record_download w row = Ok tt) ->
      appended (trace run) <> []
      /\ (forall row, In row (appended (trace run)) ->
            dl_user_id row = user_id u /\ dl_url row = url
            /\ dl_source_type row = url_type)
      /\ (outcome (download_and_deliver cfg w (Some u) url url_type) = Ok tt ->
          exists file_size,
            appended (trace run) = [success_row u url url_type file_size])
      /\ (forall error_message,
            outcome (dispatch w url_type url) = Raise (DownloadError error_message) ->
            appended (trace run) = [failed_row u url url_type error_message])
      /\ (outcome (dispatch w url_type url) = Ok None ->
          appended (trace run)
          = [failed_row u url url_type (no_downloader_error url_type url)])
      /\ (forall video_path,
            outcome (dispatch w url_type url) = Ok (Some video_path) ->
            os_path_exists w video_path = false ->
            appended (trace run)
            = [failed_row u url url_type "The downloaded file could not be found."])
      /\ (forall e,
            outcome (dispatch w url_type url) = Raise e ->
            (forall msg, e <> DownloadError msg) ->
            appended (trace run)
            = [failed_row u url url_type ("Unexpected error: " ++ str e)])
  | _ => filter is_record (calls run) = [] /\ appended (trace run) = []
  end.
Proof.
  intros url url_type Hclass Hreply run.
  pose proof (classified_tag_truthy _ Hclass) as Htruthy.
  subst run url_type url.
  unfold success_row, failed_row, no_downloader_error.
  destruct (get_or_create_user w update) as [[u|]|e] eqn:Huser.
  - intros Hrec. analyse (handle_url cfg w update).
    all: idtac; (split; [discriminate|]).
    all: idtac; (split; [intros row Hin; pick_in; subst row; repeat split|]).
    all: idtac; repeat split; leaf.
  - analyse (handle_url cfg w update); split; reflexivity.
  - analyse (handle_url cfg w update); split; reflexivity.
Qed.

(** C6, as the code has it.  After the processing message, the reply of
    a run is decided by how the body of the outer [try] ends.  When it
    raises a download error (the typed failure of the download, the gate
    and the relay), the reply is the friendly template followed by
    "Details: " and the raw error text.  When it raises anything else, the
    reply is the fixed apology, which does not carry the error text.  When
    it returns, there is no failure reply. *)
Theorem failure_reply_carries_detail_of_download_errors
    (cfg : Config) (w : World) (user_db : option User) (url url_type : string) :
  reply_text w (PROCESSING_MESSAGE cfg) = Ok tt ->
  let run := process cfg w user_db url url_type in
  match outcome (download_and_deliver cfg w user_db url url_type) with
  | Ok _ => edits (calls run) = []
  | Raise (DownloadError error_message) =>
      edits (calls run)
      = [user_friendly_message (ERROR_MESSAGE cfg) error_message
         ++ Str.nl ++ Str.nl ++ "Details: " ++ error_message]
  | Raise _ => edits (calls run) = [unexpected_reply cfg]
  end.
Proof.
  intros Hreply run. subst run.
  analyse (process cfg w user_db url url_type); reflexivity.
Qed.

(** The failures of the download, the gate and the relay are download
    errors with these texts. *)
Lemma typed_failures
    (cfg : Config) (w : World) (user_db : option User) (url url_type : string) :
  let body := download_and_deliver cfg w user_db url url_type in
  (forall error_message,
     outcome (dispatch w url_type url) = Raise (DownloadError error_message) ->
     outcome body = Raise (DownloadError error_message))
  /\ (outcome (dispatch w url_type url) = Ok None ->
      outcome body = Raise (DownloadError (no_downloader_error url_type url)))
  /\ (forall video_path,
        outcome (dispatch w url_type url) = Ok (Some video_path) ->
        os_path_exists w video_path = false ->
        outcome body = Raise (DownloadError "The downloaded file could not be found."))
  /\ (forall video_path file_size,
        outcome (dispatch w url_type url) = Ok (Some video_path) ->
        os_path_exists w video_path = true ->
        os_path_getsize w video_path = Ok file_size ->
        file_size > 50 * 1024 * 1024 ->
        (forall row, record_download w row = Ok tt) ->
        outcome body = Raise (DownloadError too_large_error))
  /\ (forall video_path file_size keyboard e,
        outcome (dispatch w url_type url) = Ok (Some video_path) ->
        os_path_exists w video_path = true ->
        os_path_getsize w video_path = Ok file_size ->
        file_size <= 50 * 1024 * 1024 ->
        open_rb w video_path = Ok tt ->
        get_donation_keyboard w (DONATION_URL cfg) = Ok keyboard ->
        reply_video w video_path (DOWNLOAD_SUCCESS_MESSAGE cfg) keyboard = Raise e ->
        outcome body = Raise (DownloadError ("Could not send video: " ++ str e))).
Proof.
  intros body. subst body. unfold no_downloader_error, too_large_error.
  repeat split; intros.
  all: repeat match goal with
              | H : _ > 50 * 1024 * 1024 |- _ =>
                  apply gt_gtb_true in H; change (50 * 1024 * 1024) with 52428800 in H
              | H : _ <= 50 * 1024 * 1024 |- _ =>
                  apply le_gtb_false in H; change (50 * 1024 * 1024) with 52428800 in H
              end.
  all: analyse (download_and_deliver cfg w user_db url url_type); leaf.
Qed.

(** The cleanup of the success path never aborts the run on a failure of
    the file system: the error is logged as a warning. *)
Lemma cleanup_failure_is_logged (w : World) (video_path : string) :
  (forall e, os_remove w video_path = Raise e -> exists msg, e = OSError msg) ->
  (forall e, os_rmdir w (os_path_dirname w video_path) = Raise e ->
             exists msg, e = OSError msg) ->
  outcome (cleanup w video_path) = Ok tt
  /\ (raised (os_remove w video_path) = true ->
      exists msg,
        calls (cleanup w video_path)
        = [OsRemove video_path;
           Logger WARNING (Text ("Failed to clean up temporary files: " ++ msg))]).
Proof.
  intros Hremove Hrmdir. unfold cleanup, calls, outcome, trace.
  unfold try_except, bind, perform, log, ret.
  destruct (os_remove w video_path) as [[]|e] eqn:E1; simpl.
  - destruct (Str.startswith _ _); simpl.
    + destruct (os_rmdir w _) as [[]|e] eqn:E2; simpl.
      * split; [reflexivity | discriminate].
      * destruct (Hrmdir e eq_refl) as [msg ->]. simpl.
        split; [reflexivity | discriminate].
    + split; [reflexivity | discriminate].
  - destruct (Hremove e eq_refl) as [msg ->]. simpl.
    split; [reflexivity | intros _; exists msg; reflexivity].
Qed.

(** After the upload the recorder is called inside a [try]: whatever the
    persistence layer answers, a file that was opened and uploaded leaves
    [send_video] without an exception, and the only calls that follow the
    upload are a log line, the recorder call for a resolved user and the
    log line of its failure. *)
Lemma recorder_failure_suppressed_after_send
    (cfg : Config) (w : World) (user_db : option User)
    (url url_type video_path : string) (file_size_mb : Q) (keyboard : bool) :
  open_rb w video_path = Ok tt ->
  get_donation_keyboard w (DONATION_URL cfg) = Ok keyboard ->
  reply_video w video_path (DOWNLOAD_SUCCESS_MESSAGE cfg) keyboard = Ok tt ->
  let run := send_video cfg w user_db url url_type video_path file_size_mb in
  outcome run = Ok tt
  /\ filter (fun c => negb (is_record c))
            (before_first (fun c => match c with Logger ERROR _ => true | _ => false end)
                          (calls run))
     = [ OpenRb video_path;
         GetDonationKeyboard (DONATION_URL cfg);
         ReplyVideo video_path (DOWNLOAD_SUCCESS_MESSAGE cfg) keyboard;
         Logger INFO (Text "Video successfully sent to user") ].
Proof.
  intros Hopen Hkb Hsend run. subst run.
  unfold send_video, record_if_user, calls, outcome, trace,
    try_except, bind, perform, log, ret, raise.
  rewrite Hopen, Hkb. simpl.
  destruct keyboard; rewrite Hsend; simpl.
  all: destruct user_db as [u|]; simpl; [|split; reflexivity].
  all: destruct (record_download w _) as [[]|e]; simpl; split; reflexivity.
Qed.

(* ================================================================== *)
(** ** Invariants of every run *)
(* ================================================================== *)

Ltac leaf_units :=
  repeat match goal with a : unit |- _ => destruct a end.

(** What holds of the calls of a run whatever the collaborators answer;
    the theorems below read their statements off this lemma. *)
Lemma run_invariants (cfg : Config) (w : World) (update : Update) :
  let url := Str.strip (message_text update) in
  let run := handle_url cfg w update in
  (filter is_download (calls run) = []
   \/ (rejected (get_url_type w url) = false
       /\ filter is_download (calls run)
          = calls (dispatch w (tag (get_url_type w url)) url)))
  /\ (forall row, In row (recorded (calls run)) ->
        rejected (get_url_type w url) = false
        /\ (exists u, get_or_create_user w update = Ok (Some u)
                      /\ dl_user_id row = user_id u)
        /\ dl_url row = url
        /\ dl_source_type row = tag (get_url_type w url)
        /\ ((dl_status row = "success" /\ dl_error_message row = None
             /\ exists video_path file_size,
                  dl_file_size row = Some (file_size # 1048576)
                  /\ os_path_getsize w video_path = Ok file_size
                  /\ file_size <= 50 * 1024 * 1024
                  /\ In video_path (uploaded (trace run)))
            \/ (dl_status row = "failed"
                /\ exists error_message, dl_error_message row = Some error_message)))
  /\ (forall video_path caption keyboard,
        In (video_path, caption, keyboard) (upload_calls (calls run)) ->
        caption = DOWNLOAD_SUCCESS_MESSAGE cfg
        /\ get_donation_keyboard w (DONATION_URL cfg) = Ok keyboard
        /\ open_rb w video_path = Ok tt)
  /\ (forall video_path, In video_path (remove_calls (calls run)) ->
        In video_path (uploaded (trace run)) /\ processing_delete w = Ok tt)
  /\ (forall dir, In dir (rmdir_calls (calls run)) ->
        exists video_path,
          dir = os_path_dirname w video_path
          /\ Str.startswith dir (gettempdir w) = true
          /\ os_remove w video_path = Ok tt
          /\ In video_path (remove_calls (calls run)))
  /\ (forall e, outcome run = Raise e ->
        reply_text w (INVALID_URL_MESSAGE cfg) = Raise e
        \/ reply_text w (PROCESSING_MESSAGE cfg) = Raise e
        \/ exists text, In text (edits (calls run)) /\ edit_text w text = Raise e).
Proof.
  intros url run. subst run url.
  analyse (handle_url cfg w update).
  all: idtac; leaf_units; (split; [first [left; reflexivity | right; split; reflexivity]|]).
  all: idtac; (split; [intros row Hin; pick_in; subst row;
              (split; [reflexivity|]);
              (split; [eexists; split; reflexivity|]);
              (split; [reflexivity|]);
              (split; [first [reflexivity
                             | match goal with
                               | H : rejected ?o = false, H' : Str.truthy (tag ?o) = false |- _ =>
                                   rewrite (classified_tag_truthy _ H) in H'; discriminate
                               end]|]);
              first [ right; split; [reflexivity | eexists; reflexivity]
                    | left; split; [reflexivity|]; split; [reflexivity|];
                      do 2 eexists; split; [reflexivity|]; split; [eassumption|];
                      split; [apply gtb_false_le; assumption | in_list] ]|]).
  all: idtac; (split; [intros p c k Hin; pick_in; injection Hin as <- <- <-;
                       repeat split; first [reflexivity | assumption] |]).
  all: idtac; (split; [intros p Hin; pick_in; subst p; (split; [in_list | reflexivity]) |]).
  all: idtac; (split; [intros d Hin; pick_in; subst d; eexists;
              (split; [reflexivity|]); (split; [assumption|]);
              (split; [assumption | in_list]) |]).
  all: idtac; intros exn_out He;
    first [ discriminate He
          | left; exact He
          | right; left; exact He
          | right; right; eexists; split; [in_list | exact He] ].
Qed.

(* ================================================================== *)
(** ** Further properties of [handle_url] *)
(* ================================================================== *)

(** X1. An empty tag is no tag: when the classifier answers the empty
    string, the condition [not url_type] holds as it does for [None], and
    the run is the rejection: two log lines and the fixed reply, with no
    profile lookup, no downloader and no record. *)
Theorem empty_tag_is_rejected (cfg : Config) (w : World) (update : Update) :
  let url := Str.strip (message_text update) in
  get_url_type w url = Some "" ->
  let run := handle_url cfg w update in
  calls run
  = [ Logger INFO (Text ("Received URL: " ++ url));
      Logger INFO (Text ("Invalid URL rejected: " ++ url));
      ReplyText (INVALID_URL_MESSAGE cfg) ]
  /\ outcome run = reply_text w (INVALID_URL_MESSAGE cfg).
Proof.
  intros url Hempty run. subst run.
  rewrite handle_url_rejected by (fold url; rewrite Hempty; reflexivity).
  split; reflexivity.
Qed.

(** X2. The processing message is sent outside the [try]: when sending
    it raises, that exception leaves [handle_url], after the profile
    lookup and before anything else: no downloader is invoked, nothing is
    recorded and no failure reply is attempted. *)
Theorem processing_reply_failure_escapes
    (cfg : Config) (w : World) (update : Update) (e : exn) :
  let url := Str.strip (message_text update) in
  rejected (get_url_type w url) = false ->
  reply_text w (PROCESSING_MESSAGE cfg) = Raise e ->
  let run := handle_url cfg w update in
  outcome run = Raise e
  /\ In GetOrCreateUser (calls run)
  /\ filter is_download (calls run) = []
  /\ recorded (calls run) = []
  /\ edits (calls run) = [].
Proof.
  intros url Hclass Hreply run. subst run url.
  analyse (handle_url cfg w update); repeat split; in_list.
Qed.

(** X3. A run invokes at most one downloader, and when it invokes one
    it is the downloader whose name is the tag the classifier returned,
    called on the stripped text of the message. *)
Theorem at_most_one_downloader (cfg : Config) (w : World) (update : Update) :
  let url := Str.strip (message_text update) in
  let cs := calls (handle_url cfg w update) in
  filter is_download cs = []
  \/ exists p,
       get_url_type w url = Some (platform_tag p)
       /\ filter is_download cs = [DownloadVideo p url].
Proof.
  intros url cs. subst cs.
  destruct (run_invariants cfg w update) as ([H|[Hclass H]] & _); [left; exact H|].
  fold url in H, Hclass. rewrite H. unfold calls, trace.
  destruct (dispatch_shape w (tag (get_url_type w url)) url)
    as [(p & Hp & E)|(_ & E)]; rewrite E; simpl; [|left; reflexivity].
  right. exists p. split; [|reflexivity].
  destruct (get_url_type w url) as [t|]; [|discriminate Hclass].
  simpl in Hp. now subst t.
Qed.

(** X4. Every row a run hands to the recorder describes the request: it
    carries the id of the resolved user profile, the stripped text of the
    message as URL and the classifier's tag as source type (the fallback
    'unknown' of the last handler is never used), and it is either a
    'success' row without an error message or a 'failed' row with one. *)
Theorem recorded_rows_describe_the_request
    (cfg : Config) (w : World) (update : Update) (row : Download) :
  let url := Str.strip (message_text update) in
  In row (recorded (calls (handle_url cfg w update))) ->
  (exists u, get_or_create_user w update = Ok (Some u) /\ dl_user_id row = user_id u)
  /\ dl_url row = url
  /\ (exists t, get_url_type w url = Some t /\ t <> "" /\ dl_source_type row = t)
  /\ ((dl_status row = "success" /\ dl_error_message row = None)
      \/ (dl_status row = "failed"
          /\ exists error_message, dl_error_message row = Some error_message)).
Proof.
  intros url Hin.
  destruct (run_invariants cfg w update) as (_ & H & _).
  destruct (H row Hin) as (Hclass & Hu & Hurl & Htype & Hstatus).
  fold url in Hclass, Htype.
  split; [exact Hu|]. split; [exact Hurl|]. split.
  - destruct (get_url_type w url) as [t|]; [|discriminate Hclass].
    exists t. split; [reflexivity|]. split; [|exact Htype].
    intros ->. discriminate Hclass.
  - destruct Hstatus as [(Hs & He & _)|Hf]; [left; split; assumption | right; exact Hf].
Qed.

(** X5. Success is recorded only for a delivered file: a 'success' row
    handed to the recorder implies that the upload of some file returned,
    and the row carries the size of that file as measured at the gate, a
    size within 50 MiB. *)
Theorem success_row_means_delivered
    (cfg : Config) (w : World) (update : Update) (row : Download) :
  let run := handle_url cfg w update in
  In row (recorded (calls run)) ->
  dl_status row = "success" ->
  exists video_path file_size,
    In video_path (uploaded (trace run))
    /\ os_path_getsize w video_path = Ok file_size
    /\ file_size <= 50 * 1024 * 1024
    /\ dl_file_size row = Some (file_size # 1048576).
Proof.
  intros run Hin Hsuccess.
  destruct (run_invariants cfg w update) as (_ & H & _).
  destruct (H row Hin) as (_ & _ & _ & _ & [(_ & _ & p & n & Hsize & Hget & Hle & Hup)|[Hf _]]).
  - exists p, n. repeat split; assumption.
  - rewrite Hf in Hsuccess. discriminate.
Qed.

(** X6. Every upload a run attempts sends a file that was opened, with
    the configured success caption, and attaches the donation keyboard
    exactly when building it for the configured donation URL returned
    one. *)
Theorem upload_carries_caption_and_keyboard
    (cfg : Config) (w : World) (update : Update)
    (video_path caption : string) (keyboard : bool) :
  In (ReplyVideo video_path caption keyboard) (calls (handle_url cfg w update)) ->
  caption = DOWNLOAD_SUCCESS_MESSAGE cfg
  /\ get_donation_keyboard w (DONATION_URL cfg) = Ok keyboard
  /\ open_rb w video_path = Ok tt.
Proof.
  intros Hin.
  destruct (run_invariants cfg w update) as (_ & _ & H & _).
  apply H. clear H. revert Hin.
  generalize (calls (handle_url cfg w update)) as cs.
  induction cs as [|c cs IH]; intros Hin; [destruct Hin|].
  destruct Hin as [->|Hin]; [left; reflexivity|].
  destruct c; simpl; auto.
Qed.

Lemma In_remove_calls (cs : list call) (p : string) :
  In (OsRemove p) cs -> In p (remove_calls cs).
Proof.
  induction cs as [|c cs IH]; intros Hin; [destruct Hin|].
  destruct Hin as [->|Hin]; [left; reflexivity|].
  destruct c; simpl; auto.
Qed.

Lemma In_rmdir_calls (cs : list call) (d : string) :
  In (OsRmdir d) cs -> In d (rmdir_calls cs).
Proof.
  induction cs as [|c cs IH]; intros Hin; [destruct Hin|].
  destruct Hin as [->|Hin]; [left; reflexivity|].
  destruct c; simpl; auto.
Qed.

(** X7. What a run removes.  A file is removed only after its upload
    and the deletion of the processing message returned.  A directory is
    removed only if it is the directory of a file whose removal was asked
    and returned, and only if its path passes the test of line 195: as a
    string it starts with the string [tempfile.gettempdir()] returns.
    That is a test on characters, not on path components: with the
    temporary directory /tmp it holds of /tmp/x and of /tmp_x alike. *)
Theorem removal_follows_delivery_and_prefix_test
    (cfg : Config) (w : World) (update : Update) :
  let run := handle_url cfg w update in
  (forall video_path, In (OsRemove video_path) (calls run) ->
     In video_path (uploaded (trace run)) /\ processing_delete w = Ok tt)
  /\ (forall dir, In (OsRmdir dir) (calls run) ->
        Str.startswith dir (gettempdir w) = true
        /\ exists video_path,
             dir = os_path_dirname w video_path
             /\ os_remove w video_path = Ok tt
             /\ In video_path (remove_calls (calls run))).
Proof.
  intros run.
  destruct (run_invariants cfg w update) as (_ & _ & _ & Hrm & Hdir & _).
  split.
  - intros p Hin. apply Hrm, In_remove_calls, Hin.
  - intros d Hin.
    destruct (Hdir d (In_rmdir_calls _ _ Hin)) as (p & Hd & Hstart & Hok & Hp).
    split; [exact Hstart|]. exists p. repeat split; assumption.
Qed.

Example prefix_test_admits_sibling :
  Str.startswith "/tmp/tmpk3v9" "/tmp" = true
  /\ Str.startswith "/tmp_x" "/tmp" = true
  /\ Str.startswith "/var/tmp" "/tmp" = false.
Proof. repeat split. Qed.

(** X8. From the test of the classifier's answer on (line 69), that is
    once the text of the message was read and the classifier returned,
    the only exceptions that leave [handle_url] are those of the messaging
    calls: when such a run ends with an exception, it was raised by the
    rejection reply, by the processing message, or by the edit that shows
    the failure text.  Failures of the profile lookup, of the
    downloaders, of the file system, of the recorder and of the upload
    never escape. *)
Theorem after_classification_only_messaging_failures_escape
    (cfg : Config) (w : World) (update : Update) (e : exn) :
  let run := handle_url cfg w update in
  outcome run = Raise e ->
  reply_text w (INVALID_URL_MESSAGE cfg) = Raise e
  \/ reply_text w (PROCESSING_MESSAGE cfg) = Raise e
  \/ exists text, In text (edits (calls run)) /\ edit_text w text = Raise e.
Proof.
  intros run. apply (run_invariants cfg w update).
Qed.

(** X9. A failure of the relay is a typed failure.  When the file
    passed the gate and opening it, building the keyboard or the upload
    raises [e], the user is shown the friendly template followed by
    "Details: Could not send video: " and the text of [e]; for a resolved
    user profile the first row handed to the recorder is a 'failed' row
    with the measured size and that detail; no upload returned. *)
Theorem relay_failure_is_typed
    (cfg : Config) (w : World) (update : Update)
    (video_path : string) (file_size : Z) (e : exn) :
  let url := Str.strip (message_text update) in
  let url_type := tag (get_url_type w url) in
  rejected (get_url_type w url) = false ->
  reply_text w (PROCESSING_MESSAGE cfg) = Ok tt ->
  outcome (dispatch w url_type url) = Ok (Some video_path) ->
  os_path_exists w video_path = true ->
  os_path_getsize w video_path = Ok file_size ->
  file_size <= 50 * 1024 * 1024 ->
  (open_rb w video_path = Raise e
   \/ (open_rb w video_path = Ok tt
       /\ get_donation_keyboard w (DONATION_URL cfg) = Raise e)
   \/ (exists keyboard,
         open_rb w video_path = Ok tt
         /\ get_donation_keyboard w (DONATION_URL cfg) = Ok keyboard
         /\ reply_video w video_path (DOWNLOAD_SUCCESS_MESSAGE cfg) keyboard = Raise e)) ->
  let run := handle_url cfg w update in
  edits (calls run) = [failure_reply cfg ("Could not send video: " ++ str e)]
  /\ uploaded (trace run) = []
  /\ match get_or_create_user w update with
     | Ok (Some u) =>
         exists rest,
           recorded (calls run) = send_failed_row u url url_type file_size e :: rest
     | _ => recorded (calls run) = []
     end.
Proof.
  intros url url_type Hclass Hreply Hdl Hex Hsz Hle Hfail run.
  apply le_gtb_false in Hle. change (50 * 1024 * 1024) with 52428800 in Hle.
  subst run url_type url. unfold send_failed_row, failure_reply.
  destruct Hfail as [Hopen|[[Hopen Hkb]|(keyboard & Hopen & Hkb & Hsend)]].
  all: destruct (get_or_create_user w update) as [[u|]|eu] eqn:Huser.
  all: analyse (handle_url cfg w update); repeat split; eexists; reflexivity.
Qed.

(** X10. A file that vanishes between the existence check and the size
    check is an unexpected failure: when [os.path.getsize] raises an
    [OSError], the user is shown the fixed apology, nothing is relayed,
    and for a resolved user profile exactly one row is handed to the
    recorder, 'failed' with "Unexpected error: " and the text of the
    error. *)
Theorem size_check_failure_is_unexpected
    (cfg : Config) (w : World) (update : Update) (video_path msg : string) :
  let url := Str.strip (message_text update) in
  let url_type := tag (get_url_type w url) in
  rejected (get_url_type w url) = false ->
  reply_text w (PROCESSING_MESSAGE cfg) = Ok tt ->
  outcome (dispatch w url_type url) = Ok (Some video_path) ->
  os_path_exists w video_path = true ->
  os_path_getsize w video_path = Raise (OSError msg) ->
  let run := handle_url cfg w update in
  edits (calls run) = [unexpected_reply cfg]
  /\ relayed (calls run) = []
  /\ outcome run = edit_text w (unexpected_reply cfg)
  /\ match get_or_create_user w update with
     | Ok (Some u) =>
         recorded (calls run) = [failed_row u url url_type ("Unexpected error: " ++ msg)]
     | _ => recorded (calls run) = []
     end.
Proof.
  intros url url_type Hclass Hreply Hdl Hex Hsz run.
  pose proof (classified_tag_truthy _ Hclass) as Htruthy.
  subst run url_type url. unfold failed_row.
  destruct (get_or_create_user w update) as [[u|]|eu] eqn:Huser.
  all: analyse (handle_url cfg w update); repeat split.
Qed.

(** X11. The cleanup is best effort.  When a file was delivered and the
    processing message deleted, an [OSError] raised by [os.remove], or by
    [os.rmdir] on the temporary directory, is logged as a warning and
    nothing more: the run returns normally, the user sees no failure
    text, and the last call of the run is that warning. *)
Theorem cleanup_failure_is_tolerated
    (cfg : Config) (w : World) (update : Update)
    (video_path msg : string) (file_size : Z) (keyboard : bool) :
  let url := Str.strip (message_text update) in
  let url_type := tag (get_url_type w url) in
  rejected (get_url_type w url) = false ->
  reply_text w (PROCESSING_MESSAGE cfg) = Ok tt ->
  outcome (dispatch w url_type url) = Ok (Some video_path) ->
  os_path_exists w video_path = true ->
  os_path_getsize w video_path = Ok file_size ->
  file_size <= 50 * 1024 * 1024 ->
  open_rb w video_path = Ok tt ->
  get_donation_keyboard w (DONATION_URL cfg) = Ok keyboard ->
  reply_video w video_path (DOWNLOAD_SUCCESS_MESSAGE cfg) keyboard = Ok tt ->
  processing_delete w = Ok tt ->
  (os_remove w video_path = Raise (OSError msg)
   \/ (os_remove w video_path = Ok tt
       /\ Str.startswith (os_path_dirname w video_path) (gettempdir w) = true
       /\ os_rmdir w (os_path_dirname w video_path) = Raise (OSError msg))) ->
  let run := handle_url cfg w update in
  outcome run = Ok tt
  /\ edits (calls run) = []
  /\ uploaded (trace run) = [video_path]
  /\ last (calls run) ProcessingDelete
     = Logger WARNING (Text ("Failed to clean up temporary files: " ++ msg)).
Proof.
  intros url url_type Hclass Hreply Hdl Hex Hsz Hle Hopen Hkb Hsend Hdel Hfail run.
  apply le_gtb_false in Hle. change (50 * 1024 * 1024) with 52428800 in Hle.
  subst run url_type url.
  destruct Hfail as [Hrm|(Hrm & Hstart & Hrmdir)].
  all: analyse (handle_url cfg w update); repeat split.
Qed.

(** X12. On the success path a failure of the persistence layer is
    suppressed: when a file was delivered for a resolved user and the
    recorder raises on the success row, the failure is logged, the
    processing message is still deleted, the file is still removed, and,
    with a cleanup that succeeds, the run returns normally without any
    failure text. *)
Theorem recorder_failure_after_delivery_is_suppressed
    (cfg : Config) (w : World) (update : Update) (u : User)
    (video_path : string) (file_size : Z) (keyboard : bool) (e : exn) :
  let url := Str.strip (message_text update) in
  let url_type := tag (get_url_type w url) in
  rejected (get_url_type w url) = false ->
  get_or_create_user w update = Ok (Some u) ->
  reply_text w (PROCESSING_MESSAGE cfg) = Ok tt ->
  outcome (dispatch w url_type url) = Ok (Some video_path) ->
  os_path_exists w video_path = true ->
  os_path_getsize w video_path = Ok file_size ->
  file_size <= 50 * 1024 * 1024 ->
  open_rb w video_path = Ok tt ->
  get_donation_keyboard w (DONATION_URL cfg) = Ok keyboard ->
  reply_video w video_path (DOWNLOAD_SUCCESS_MESSAGE cfg) keyboard = Ok tt ->
  record_download w (success_row u url url_type file_size) = Raise e ->
  processing_delete w = Ok tt ->
  os_remove w video_path = Ok tt ->
  os_rmdir w (os_path_dirname w video_path) = Ok tt ->
  let run := handle_url cfg w update in
  outcome run = Ok tt
  /\ edits (calls run) = []
  /\ uploaded (trace run) = [video_path]
  /\ appended (trace run) = []
  /\ In (Logger ERROR
           (Text ("Failed to record successful download in database: " ++ str e)))
        (calls run)
  /\ In {| ev_call := ProcessingDelete; ev_raised := false |} (trace run)
  /\ In video_path (removed (trace run)).
Proof.
  intros url url_type Hclass Huser Hreply Hdl Hex Hsz Hle Hopen Hkb Hsend Hrec
    Hdel Hrm Hrmdir run.
  apply le_gtb_false in Hle. change (50 * 1024 * 1024) with 52428800 in Hle.
  subst run url_type url. unfold success_row in Hrec.
  analyse (handle_url cfg w update); repeat split; in_list.
Qed.

(* ================================================================== *)
(** ** A further property of the failure classifier *)
(* ================================================================== *)

(** X13. The prefix the relay handler puts before the text of the
    exception never decides the template: a failure "Could not send
    video: ..." is classified exactly as the text of the underlying
    exception is. *)
Theorem relay_prefix_is_neutral (fallback detail : string) :
  user_friendly_message fallback ("Could not send video: " ++ detail)
  = user_friendly_message fallback detail.
Proof.
  unfold user_friendly_message. rewrite lower_app.
  generalize (Str.lower detail) as x. intros x.
  vm_compute. reflexivity.
Qed.

(* ================================================================== *)
(** ** The commands and the start of the bot *)
(* ================================================================== *)

(** X14. The donate command replies at most once, and only with the
    formatted donation text.  When the text was formatted and the keyboard
    builder returned, the reply is sent, with the keyboard when one was
    built and without it otherwise; an exception of the formatting or of
    the keyboard builder leaves the command before any reply. *)
Theorem donate_replies_with_or_without_keyboard
    (cfg : Config) (tx : Commands.Texts) (w : Commands.World) :
  let run := Commands.donate_command cfg tx w in
  let url := DONATION_URL cfg in
  match Commands.format_donation_text w (Commands.DONATION_TEXT tx) url with
  | Raise e => Tr.calls run = [] /\ Tr.outcome run = Raise e
  | Ok donation_message =>
      match Commands.get_keyboard w url with
      | Raise e => Tr.calls run = [Commands.GetKeyboard url] /\ Tr.outcome run = Raise e
      | Ok keyboard =>
          Tr.calls run
          = [Commands.GetKeyboard url;
             Commands.MessageReplyText donation_message keyboard]
          /\ Tr.outcome run = Commands.message_reply_text w donation_message keyboard
      end
  end
  /\ (List.length (filter Commands.is_reply (Tr.calls run)) <= 1)%nat.
Proof.
  intros run url. subst run url.
  unfold Commands.donate_command, Tr.calls, Tr.outcome, Tr.bind, Tr.perform.
  destruct (Commands.format_donation_text w _ _) as [msg|e]; simpl;
    [|repeat split; apply Nat.le_0_l].
  destruct (Commands.get_keyboard w _) as [[]|e]; simpl; repeat split;
    auto using Nat.le_0_l.
Qed.

(** X15. The bot polls only with a token and with every handler in
    place.  Without a token ([None] or the empty string) [run_bot] logs
    the error and returns: no application is built.  In every run,
    polling is reached only if the application was built with the token
    and the five handlers and the error handler were registered, in the
    order start, help, donate, text that is not a command, callback
    query, and each of these calls returned. *)
Theorem polling_needs_token_and_handlers (tx : Commands.Texts) (w : Commands.World) :
  let run := Commands.run_bot tx w in
  ((Commands.BOT_TOKEN tx = None \/ Commands.BOT_TOKEN tx = Some "") ->
   Tr.calls run
   = [Commands.LoggerError "TELEGRAM_BOT_TOKEN environment variable is not set!"]
   /\ Tr.outcome run = Ok tt)
  /\ (In Commands.RunPolling (Tr.calls run) ->
      exists token,
        Commands.BOT_TOKEN tx = Some token /\ token <> ""
        /\ Tr.calls run
           = (Commands.BuildApplication token :: Commands.registrations
              ++ [Commands.LoggerInfo "Starting bot..."; Commands.RunPolling])%list
        /\ Forall (fun ev => snd ev = false \/ fst ev = Commands.RunPolling) (fst run)
        /\ Tr.outcome run = Commands.run_polling w).
Proof.
  intros run. subst run. unfold Commands.run_bot, Tr.calls, Tr.outcome.
  destruct (Commands.BOT_TOKEN tx) as [[|c token]|].
  - split; [intros _; split; reflexivity|].
    simpl. intros [H|[]]. discriminate H.
  - split; [intros [H|H]; discriminate H|].
    unfold Tr.bind, Tr.perform.
    destruct (Commands.build_application w _) as [[]|e0]; simpl;
      [|intros [H|[]]; discriminate H].
    repeat (match goal with
            | |- context [Commands.add_handler w ?h] =>
                destruct (Commands.add_handler w h) as [[]|?]; simpl;
                [|intros H; repeat (destruct H as [H|H]; try discriminate H);
                  destruct H]
            end).
    destruct (Commands.add_error_handler w) as [[]|e0]; simpl;
      [|intros H; repeat (destruct H as [H|H]; try discriminate H); destruct H].
    intros _. exists (String c token). repeat split; try discriminate.
    repeat (apply Forall_cons; [first [left; reflexivity | right; reflexivity]|]).
    apply Forall_nil.
  - split; [intros _; split; reflexivity|].
    simpl. intros [H|[]]. discriminate H.
Qed.

(* ================================================================== *)
(** ** The database set-up *)
(* ================================================================== *)

Lemma set_same (c : Models.config) (k : string) (v : Models.pyval) :
  Models.set c k v k = Some v.
Proof. unfold Models.set. now rewrite String.eqb_refl. Qed.

Lemma set_other (c : Models.config) (k k' : string) (v : Models.pyval) :
  k' <> k -> Models.set c k v k' = c k'.
Proof.
  intros H. unfold Models.set.
  destruct (String.eqb_spec k' k); [contradiction | reflexivity].
Qed.

(** X16. What [init_db] itself writes.  Before it calls [db.init_app],
    [init_db] leaves a configuration whose database URI counts as true
    exactly as it is, engine options included.  Otherwise it sets the URI
    to the value of the environment variable DATABASE_URL ([None] when it
    is not set) and the engine options to pool_recycle 300 and
    pool_pre_ping True.  It writes no other key.  The configuration
    [init_db] leaves is what [db.init_app] makes of that one. *)
Theorem init_db_configuration (w : Models.World) (c : Models.config) :
  let c1 := Models.configure w c in
  fst (Models.init_db w c) = fst (Models.db_init_app w c1)
  /\ (Models.truthy (Models.get c "SQLALCHEMY_DATABASE_URI") = true -> c1 = c)
  /\ (Models.truthy (Models.get c "SQLALCHEMY_DATABASE_URI") = false ->
      Models.get c1 "SQLALCHEMY_DATABASE_URI" = Models.environ_get w "DATABASE_URL"
      /\ Models.get c1 "SQLALCHEMY_ENGINE_OPTIONS" = Models.engine_options)
  /\ (forall k, k <> "SQLALCHEMY_DATABASE_URI" -> k <> "SQLALCHEMY_ENGINE_OPTIONS" ->
                c1 k = c k).
Proof.
  intros c1. subst c1. split; [reflexivity|]. unfold Models.configure.
  destruct (Models.truthy (Models.get c "SQLALCHEMY_DATABASE_URI")) eqn:Huri;
    cbn [negb].
  - split; [reflexivity|]. split; [discriminate|]. reflexivity.
  - split; [discriminate|]. split.
    + intros _. split; reflexivity.
    + intros k H1 H2. now rewrite set_other, set_other.
Qed.

(** X17. Setting up twice.  When [db.init_app] keeps the database URI
    and the engine options it finds set, the configuration [init_db]
    leaves is not changed, key by key, by the writes of a second
    [init_db] in the same environment: the second call hands
    [db.init_app] the configuration the first one left. *)
Theorem init_db_idempotent (w : Models.World) (c : Models.config) (k : string) :
  Models.keeps_database_settings w (Models.configure w c) ->
  Models.configure w (fst (Models.init_db w c)) k = fst (Models.init_db w c) k.
Proof.
  intros Hkeep. unfold Models.init_db. cbn [fst].
  set (c1 := Models.configure w c) in *.
  set (c2 := fst (Models.db_init_app w c1)).
  assert (Huri_in : In "SQLALCHEMY_DATABASE_URI"
                       ["SQLALCHEMY_DATABASE_URI"; "SQLALCHEMY_ENGINE_OPTIONS"])
    by (left; reflexivity).
  assert (Hopt_in : In "SQLALCHEMY_ENGINE_OPTIONS"
                       ["SQLALCHEMY_DATABASE_URI"; "SQLALCHEMY_ENGINE_OPTIONS"])
    by (right; left; reflexivity).
  assert (H : (c1 = c /\ Models.truthy (Models.get c "SQLALCHEMY_DATABASE_URI") = true)
              \/ (c1 "SQLALCHEMY_DATABASE_URI"
                    = Some (Models.environ_get w "DATABASE_URL")
                  /\ c1 "SQLALCHEMY_ENGINE_OPTIONS" = Some Models.engine_options)).
  { subst c1. unfold Models.configure.
    destruct (Models.truthy (Models.get c "SQLALCHEMY_DATABASE_URI"));
      [left; split; reflexivity | right; cbn [negb]].
    split; [rewrite set_other by discriminate|]; apply set_same. }
  destruct H as [[Hc Huri]|[Huri Hopt]].
  - (* the URI was configured: it is kept, and the second call writes nothing *)
    unfold Models.get in Huri.
    destruct (c "SQLALCHEMY_DATABASE_URI") as [v|] eqn:Ev; [|discriminate Huri].
    assert (Hc2 : c2 "SQLALCHEMY_DATABASE_URI" = Some v).
    { apply Hkeep; [exact Huri_in | rewrite Hc; exact Ev]. }
    unfold Models.configure, Models.get. now rewrite Hc2, Huri.
  - (* both keys were written: they are kept, and writing them again changes nothing *)
    pose proof (Hkeep _ _ Huri_in Huri) as Hc2uri.
    pose proof (Hkeep _ _ Hopt_in Hopt) as Hc2opt.
    fold c2 in Hc2uri, Hc2opt.
    unfold Models.configure.
    destruct (Models.truthy (Models.get c2 "SQLALCHEMY_DATABASE_URI")); cbn [negb];
      [reflexivity|].
    destruct (String.eqb_spec k "SQLALCHEMY_ENGINE_OPTIONS") as [->|Hk].
    + now rewrite set_same.
    + rewrite (set_other _ _ k _ Hk).
      destruct (String.eqb_spec k "SQLALCHEMY_DATABASE_URI") as [->|Hk'].
      * now rewrite set_same.
      * now rewrite set_other.
Qed.

(** X18. Only the creation of the tables may fail quietly.  An
    exception of [db.init_app] leaves [init_db], and the tables are not
    created.  Once [db.init_app] returned, [init_db] returns normally
    whatever [db.create_all] does: its exception is printed as a note and
    dropped. *)
Theorem init_db_failures (w : Models.World) (c : Models.config) :
  let c' := fst (Models.init_db w c) in
  let run := snd (Models.init_db w c) in
  match snd (Models.db_init_app w (Models.configure w c)) with
  | Raise e => Tr.calls run = [Models.InitApp] /\ Tr.outcome run = Raise e
  | Ok _ =>
      Tr.outcome run = Ok tt
      /\ match Models.db_create_all w c' with
         | Ok _ => Tr.calls run = [Models.InitApp; Models.CreateAll]
         | Raise e =>
             Tr.calls run
             = [Models.InitApp; Models.CreateAll; Models.Print ("Note: " ++ str e)]
         end
  end.
Proof.
  intros c' run. subst c' run. unfold Models.init_db. cbn [fst snd].
  unfold Tr.calls, Tr.outcome, Tr.bind, Tr.try_except, Tr.perform.
  destruct (snd (Models.db_init_app w _)) as [[]|e]; simpl; [|split; reflexivity].
  destruct (Models.db_create_all w _) as [[]|e]; simpl; split; reflexivity.
Qed.

(* ================================================================== *)
(** ** Runs in concrete worlds *)
(* ================================================================== *)

(** Scenario 8 of the specification. *)
Example scenario_private_account :
  let run := handle_url Sample.cfg Sample.private_account (Sample.update Sample.tiktok_url) in
  edits (calls run)
  = [private_account_message ++ Str.nl ++ Str.nl ++ "Details: This account is private"]
  /\ appended (trace run)
     = [failed_row Sample.alice Sample.tiktok_url "tiktok" "This account is private"]
  /\ relayed (calls run) = []
  /\ outcome run = Ok tt.
Proof. repeat split. Qed.

(** Scenario 9 of the specification; the gate failure is stored twice,
    first with the measured size and then, by the handler of the download
    error, without it. *)
Example scenario_oversized :
  let run := handle_url Sample.cfg Sample.oversized (Sample.update Sample.tiktok_url) in
  edits (calls run) = [too_large_reply]
  /\ appended (trace run)
     = [gate_row Sample.alice Sample.tiktok_url "tiktok" (60 * Sample.MiB);
        failed_row Sample.alice Sample.tiktok_url "tiktok" too_large_error]
  /\ relayed (calls run) = []
  /\ outcome run = Ok tt.
Proof. repeat split. Qed.

(** A failure of the relay is stored twice as well. *)
Example send_failure_recorded_twice :
  let run := handle_url Sample.cfg Sample.send_fails (Sample.update Sample.tiktok_url) in
  edits (calls run)
  = [failure_reply Sample.cfg "Could not send video: Timed out"]
  /\ appended (trace run)
     = [ {| dl_user_id := 42; dl_url := Sample.tiktok_url; dl_source_type := "tiktok";
            dl_file_size := Some (3145728 # 1048576); dl_status := "failed";
            dl_error_message := Some "Could not send video: Timed out" |};
         failed_row Sample.alice Sample.tiktok_url "tiktok"
                    "Could not send video: Timed out" ].
Proof. repeat split. Qed.

(** C2: the code leaves the temporary file behind on the failure paths.
    In the run of scenario 9 the downloaded file exists, the run ends
    with the too-large reply, and neither [os.remove] nor [os.rmdir] is
    called; the same holds when the relay fails.  On the success path the
    file and its directory are removed. *)
Theorem temporary_file_left_behind_on_failure :
  let gate := handle_url Sample.cfg Sample.oversized (Sample.update Sample.tiktok_url) in
  let send := handle_url Sample.cfg Sample.send_fails (Sample.update Sample.tiktok_url) in
  let good := handle_url Sample.cfg Sample.delivered (Sample.update Sample.tiktok_url) in
  (exists_checks (calls gate) = [Sample.video]
   /\ os_path_exists Sample.oversized Sample.video = true
   /\ edits (calls gate) = [too_large_reply]
   /\ outcome gate = Ok tt
   /\ filter is_remove (calls gate) = []
   /\ removed (trace gate) = [])
  /\ (relayed (calls send) = [Sample.video; Sample.video]
      /\ outcome send = Ok tt
      /\ filter is_remove (calls send) = []
      /\ removed (trace send) = [])
  /\ removed (trace good) = [Sample.video; "/tmp/tmpk3v9"].
Proof. repeat split. Qed.

(** C4: at the gate the recorder is called outside any [try].  With a
    persistence layer that raises, the run of scenario 9 no longer ends
    with the too-large reply but with the apology for an unexpected
    error. *)
Theorem recorder_failure_at_gate_changes_reply :
  let upd := Sample.update Sample.tiktok_url in
  edits (calls (handle_url Sample.cfg Sample.oversized upd)) = [too_large_reply]
  /\ edits (calls (handle_url Sample.cfg Sample.oversized_recorder_down upd))
     = [unexpected_reply Sample.cfg]
  /\ unexpected_reply Sample.cfg <> too_large_reply.
Proof.
  repeat split. vm_compute. discriminate.
Qed.

(** C1, as stated, fails: with no user profile the file is delivered and
    no outcome record is written. *)
Lemma null_user_run_counterexample :
  let run := handle_url Sample.cfg Sample.no_user (Sample.update Sample.tiktok_url) in
  rejected (get_url_type Sample.no_user (Str.strip Sample.tiktok_url)) = false
  /\ relayed (calls run) = [Sample.video; Sample.video]
  /\ outcome run = Ok tt
  /\ filter is_record (calls run) = []
  /\ List.length (appended (trace run)) <> 1%nat.
Proof.
  repeat split. vm_compute. discriminate.
Qed.

(** C3, as stated, fails: a file of exactly 50 MiB passes the gate and is
    relayed; and for a null user reference the rejection of a 60 MiB file
    is not recorded at all. *)
Lemma at_ceiling_counterexample :
  let run := handle_url Sample.cfg Sample.at_ceiling (Sample.update Sample.tiktok_url) in
  let run' := handle_url Sample.cfg Sample.oversized_no_user (Sample.update Sample.tiktok_url) in
  os_path_getsize Sample.at_ceiling Sample.video = Ok (50 * 1024 * 1024)
  /\ relayed (calls run) = [Sample.video; Sample.video]
  /\ edits (calls run) = []
  /\ edits (calls run') = [too_large_reply]
  /\ appended (trace run') = [].
Proof. repeat split. Qed.

(** C6, as stated, fails: an unexpected failure produces a reply that
    does not carry the raw failure text. *)
Lemma unexpected_reply_counterexample :
  let run := handle_url Sample.cfg Sample.downloader_crashes
               (Sample.update Sample.tiktok_url) in
  edits (calls run)
  = ["Sorry, the download failed" ++ Str.nl ++ Str.nl
     ++ "An unexpected error occurred. Please try again later."]
  /\ forallb (fun reply => negb (Str.str_in "connection reset by peer" reply))
             (edits (calls run)) = true.
Proof. repeat split. Qed.

(** C10, as stated, fails: for a null user reference the typed failure
    of an unknown tag is replied to but not recorded. *)
Lemma unknown_tag_counterexample :
  let run := handle_url Sample.cfg (Sample.unknown_tag (Ok None))
               (Sample.update Sample.vimeo_url) in
  edits (calls run)
  = [failure_reply Sample.cfg (no_downloader_error "vimeo" Sample.vimeo_url)]
  /\ filter is_record (calls run) = []
  /\ appended (trace run) = [].
Proof. repeat split. Qed.

(* ================================================================== *)
(** ** The theorems at concrete inputs *)
(* ================================================================== *)

Lemma failure_classifier_first_match_witness :
  user_friendly_message "Sorry, the download failed" "This account IS Private"
  = private_account_message
  /\ user_friendly_message "Sorry, the download failed" too_large_error
     = too_large_message.
Proof.
  split.
  - destruct (failure_classifier_first_match
                "Sorry, the download failed" "This account IS Private")
      as (_ & _ & H & _).
    exact (H "This account " "IS Private" "" eq_refl eq_refl).
  - destruct (failure_classifier_first_match
                "Sorry, the download failed" too_large_error)
      as (_ & _ & _ & H & _).
    exact (H "The video " "is too large" " to send via Telegram (limit: 50MB)."
             eq_refl eq_refl eq_refl).
Defined.

Lemma unrecognized_url_is_rejected_witness :
  let w := Sample.world None (Ok (Some Sample.alice)) (Ok (Some Sample.video)) true
             (Ok 1) Sample.ok_recorder (Ok tt) (Ok tt) in
  let run := handle_url Sample.cfg w (Sample.update "hello there") in
  calls run
  = [ Logger INFO (Text "Received URL: hello there");
      Logger INFO (Text "Invalid URL rejected: hello there");
      ReplyText "Please send a valid video link" ]
  /\ outcome run = Ok tt
  /\ filter is_download (calls run) = []
  /\ filter is_record (calls run) = []
  /\ appended (trace run) = [].
Proof.
  exact (unrecognized_url_is_rejected Sample.cfg
           (Sample.world None (Ok (Some Sample.alice)) (Ok (Some Sample.video)) true
              (Ok 1) Sample.ok_recorder (Ok tt) (Ok tt))
           (Sample.update "hello there") eq_refl).
Defined.

Lemma delivery_gate_precedes_relay_witness :
  let cs := calls (handle_url Sample.cfg Sample.delivered
                     (Sample.update Sample.tiktok_url)) in
  os_path_exists Sample.delivered Sample.video = true
  /\ (exists file_size,
        os_path_getsize Sample.delivered Sample.video = Ok file_size
        /\ file_size <= 50 * 1024 * 1024)
  /\ In Sample.video (exists_checks (before_first is_getsize cs))
  /\ In Sample.video (size_checks (before_first is_relay cs)).
Proof.
  exact (proj1 (delivery_gate_precedes_relay Sample.cfg Sample.delivered
                  (Sample.update Sample.tiktok_url))
           Sample.video (or_introl eq_refl)).
Defined.

Lemma user_resolution_failure_degrades_witness :
  let upd := Sample.update Sample.tiktok_url in
  outcome (resolve_user Sample.no_user upd) = Ok None
  /\ In {| ev_call := ReplyVideo Sample.video "Here is your video" true;
           ev_raised := false |}
        (trace (handle_url Sample.cfg Sample.no_user upd)).
Proof.
  destruct (user_resolution_failure_degrades Sample.cfg Sample.no_user
              (Sample.update Sample.tiktok_url) eq_refl
              (or_intror (ex_intro _ (OtherException "connection refused") eq_refl)))
    as (H1 & _ & _ & _ & H5).
  split; [exact H1|].
  refine (proj1 (H5 Sample.video (3 * Sample.MiB) true
                    eq_refl eq_refl eq_refl eq_refl _ eq_refl eq_refl eq_refl)).
  vm_compute. discriminate.
Defined.

Lemma unknown_tag_is_download_failure_witness :
  let upd := Sample.update Sample.vimeo_url in
  let run := handle_url Sample.cfg (Sample.unknown_tag (Ok (Some Sample.alice))) upd in
  edits (calls run)
  = [failure_reply Sample.cfg (no_downloader_error "vimeo" Sample.vimeo_url)]
  /\ appended (trace run)
     = [failed_row Sample.alice Sample.vimeo_url "vimeo"
          (no_downloader_error "vimeo" Sample.vimeo_url)].
Proof.
  destruct (unknown_tag_is_download_failure Sample.cfg
              (Sample.unknown_tag (Ok (Some Sample.alice)))
              (Sample.update Sample.vimeo_url) "vimeo" eq_refl eq_refl)
    as (_ & _ & _ & Hedits & _ & _ & Hrec).
  - intros []; discriminate.
  - reflexivity.
  - split; [exact Hedits | exact (Hrec eq_refl)].
Defined.

Lemma oversized_file_is_rejected_witness :
  let run := handle_url Sample.cfg Sample.oversized (Sample.update Sample.tiktok_url) in
  relayed (calls run) = []
  /\ hd_error (recorded (calls run))
     = Some (gate_row Sample.alice Sample.tiktok_url "tiktok" (60 * Sample.MiB))
  /\ edits (calls run) = [too_large_reply]
  /\ appended (trace run)
     = [gate_row Sample.alice Sample.tiktok_url "tiktok" (60 * Sample.MiB);
        failed_row Sample.alice Sample.tiktok_url "tiktok" too_large_error].
Proof.
  destruct (oversized_file_is_rejected Sample.cfg Sample.oversized
              (Sample.update Sample.tiktok_url) Sample.video (60 * Sample.MiB)
              eq_refl eq_refl eq_refl eq_refl eq_refl eq_refl)
    as (Hrelay & Hfirst & Hrec).
  destruct (Hrec eq_refl) as (_ & Hedits & _ & Happended).
  repeat split; assumption.
Defined.

Lemma outcome_recorded_for_resolved_user_witness :
  let run := handle_url Sample.cfg Sample.delivered (Sample.update Sample.tiktok_url) in
  appended (trace run) <> []
  /\ exists file_size,
       appended (trace run)
       = [success_row Sample.alice Sample.tiktok_url "tiktok" file_size].
Proof.
  destruct (outcome_recorded_for_resolved_user Sample.cfg Sample.delivered
              (Sample.update Sample.tiktok_url) eq_refl eq_refl (fun _ => eq_refl))
    as (Hsome & _ & Hsuccess & _).
  split; [exact Hsome | exact (Hsuccess eq_refl)].
Defined.

Lemma failure_reply_carries_detail_of_download_errors_witness :
  edits (calls (process Sample.cfg Sample.private_account (Some Sample.alice)
                  Sample.tiktok_url "tiktok"))
  = [private_account_message ++ Str.nl ++ Str.nl ++ "Details: This account is private"].
Proof.
  exact (failure_reply_carries_detail_of_download_errors Sample.cfg
           Sample.private_account (Some Sample.alice) Sample.tiktok_url "tiktok" eq_refl).
Defined.

(* ================================================================== *)
(** ** The further properties at concrete inputs *)
(* ================================================================== *)

Lemma empty_tag_is_rejected_witness :
  calls (handle_url Sample.cfg Cases.empty_tag (Sample.update "hello"))
  = [ Logger INFO (Text "Received URL: hello");
      Logger INFO (Text "Invalid URL rejected: hello");
      ReplyText "Please send a valid video link" ]
  /\ outcome (handle_url Sample.cfg Cases.empty_tag (Sample.update "hello")) = Ok tt.
Proof.
  exact (empty_tag_is_rejected Sample.cfg Cases.empty_tag (Sample.update "hello") eq_refl).
Defined.

Lemma processing_reply_failure_escapes_witness :
  let run := handle_url Sample.cfg Cases.chat_closed (Sample.update Sample.tiktok_url) in
  outcome run = Raise (OtherException "Forbidden: bot was blocked by the user")
  /\ In GetOrCreateUser (calls run)
  /\ filter is_download (calls run) = []
  /\ recorded (calls run) = []
  /\ edits (calls run) = [].
Proof.
  exact (processing_reply_failure_escapes Sample.cfg Cases.chat_closed
           (Sample.update Sample.tiktok_url)
           (OtherException "Forbidden: bot was blocked by the user") eq_refl eq_refl).
Defined.

Lemma recorded_rows_describe_the_request_witness :
  dl_url Cases.delivered_row = Sample.tiktok_url
  /\ exists t, Some "tiktok" = Some t /\ t <> "" /\ dl_source_type Cases.delivered_row = t.
Proof.
  destruct (recorded_rows_describe_the_request Sample.cfg Sample.delivered
              (Sample.update Sample.tiktok_url) Cases.delivered_row
              (or_introl eq_refl))
    as (_ & Hurl & Htype & _).
  split; [exact Hurl | exact Htype].
Defined.

Lemma success_row_means_delivered_witness :
  exists video_path file_size,
    In video_path
       (uploaded (trace (handle_url Sample.cfg Sample.delivered
                           (Sample.update Sample.tiktok_url))))
    /\ os_path_getsize Sample.delivered video_path = Ok file_size
    /\ file_size <= 50 * 1024 * 1024
    /\ dl_file_size Cases.delivered_row = Some (file_size # 1048576).
Proof.
  exact (success_row_means_delivered Sample.cfg Sample.delivered
           (Sample.update Sample.tiktok_url) Cases.delivered_row
           (or_introl eq_refl) eq_refl).
Defined.

Lemma upload_carries_caption_and_keyboard_witness :
  "Here is your video" = DOWNLOAD_SUCCESS_MESSAGE Sample.cfg
  /\ get_donation_keyboard Sample.delivered (DONATION_URL Sample.cfg) = Ok true
  /\ open_rb Sample.delivered Sample.video = Ok tt.
Proof.
  apply (upload_carries_caption_and_keyboard Sample.cfg Sample.delivered
           (Sample.update Sample.tiktok_url) Sample.video "Here is your video" true).
  vm_compute. do 10 right. left. reflexivity.
Defined.

Lemma after_classification_only_messaging_failures_escape_witness :
  let e := OtherException "Forbidden: bot was blocked by the user" in
  let run := handle_url Sample.cfg Cases.chat_closed (Sample.update Sample.tiktok_url) in
  reply_text Cases.chat_closed (INVALID_URL_MESSAGE Sample.cfg) = Raise e
  \/ reply_text Cases.chat_closed (PROCESSING_MESSAGE Sample.cfg) = Raise e
  \/ exists text, In text (edits (calls run)) /\ edit_text Cases.chat_closed text = Raise e.
Proof.
  exact (after_classification_only_messaging_failures_escape Sample.cfg Cases.chat_closed
           (Sample.update Sample.tiktok_url)
           (OtherException "Forbidden: bot was blocked by the user") eq_refl).
Defined.

Lemma relay_failure_is_typed_witness :
  let run := handle_url Sample.cfg Sample.send_fails (Sample.update Sample.tiktok_url) in
  edits (calls run) = [failure_reply Sample.cfg "Could not send video: Timed out"]
  /\ uploaded (trace run) = []
  /\ exists rest,
       recorded (calls run)
       = send_failed_row Sample.alice Sample.tiktok_url "tiktok" (3 * Sample.MiB)
           (OtherException "Timed out") :: rest.
Proof.
  refine (relay_failure_is_typed Sample.cfg Sample.send_fails
            (Sample.update Sample.tiktok_url) Sample.video (3 * Sample.MiB)
            (OtherException "Timed out") eq_refl eq_refl eq_refl eq_refl eq_refl _
            (or_intror (or_intror (ex_intro _ true (conj eq_refl (conj eq_refl eq_refl)))))).
  vm_compute. discriminate.
Defined.

Lemma size_check_failure_is_unexpected_witness :
  let run := handle_url Sample.cfg Cases.file_vanishes (Sample.update Sample.tiktok_url) in
  edits (calls run) = [unexpected_reply Sample.cfg]
  /\ relayed (calls run) = []
  /\ outcome run = Ok tt
  /\ recorded (calls run)
     = [failed_row Sample.alice Sample.tiktok_url "tiktok"
          "Unexpected error: No such file or directory"].
Proof.
  exact (size_check_failure_is_unexpected Sample.cfg Cases.file_vanishes
           (Sample.update Sample.tiktok_url) Sample.video "No such file or directory"
           eq_refl eq_refl eq_refl eq_refl eq_refl).
Defined.

Lemma cleanup_failure_is_tolerated_witness :
  let run := handle_url Sample.cfg Cases.remove_denied (Sample.update Sample.tiktok_url) in
  outcome run = Ok tt
  /\ edits (calls run) = []
  /\ uploaded (trace run) = [Sample.video]
  /\ last (calls run) ProcessingDelete
     = Logger WARNING (Text "Failed to clean up temporary files: Permission denied").
Proof.
  refine (cleanup_failure_is_tolerated Sample.cfg Cases.remove_denied
            (Sample.update Sample.tiktok_url) Sample.video "Permission denied"
            (3 * Sample.MiB) true eq_refl eq_refl eq_refl eq_refl eq_refl _
            eq_refl eq_refl eq_refl eq_refl (or_introl eq_refl)).
  vm_compute. discriminate.
Defined.

Lemma recorder_failure_after_delivery_is_suppressed_witness :
  let run := handle_url Sample.cfg Cases.delivered_recorder_down
               (Sample.update Sample.tiktok_url) in
  outcome run = Ok tt
  /\ edits (calls run) = []
  /\ uploaded (trace run) = [Sample.video]
  /\ appended (trace run) = []
  /\ In (Logger ERROR
           (Text "Failed to record successful download in database: database is locked"))
        (calls run)
  /\ In {| ev_call := ProcessingDelete; ev_raised := false |} (trace run)
  /\ In Sample.video (removed (trace run)).
Proof.
  refine (recorder_failure_after_delivery_is_suppressed Sample.cfg
            Cases.delivered_recorder_down (Sample.update Sample.tiktok_url)
            Sample.alice Sample.video (3 * Sample.MiB) true
            (OtherException "database is locked")
            eq_refl eq_refl eq_refl eq_refl eq_refl eq_refl _
            eq_refl eq_refl eq_refl eq_refl eq_refl eq_refl eq_refl).
  vm_compute. discriminate.
Defined.

Lemma init_db_idempotent_witness :
  Models.configure Cases.database
    (fst (Models.init_db Cases.database Cases.empty_config)) "SQLALCHEMY_DATABASE_URI"
  = Some (Models.Atom (Models.AStr "postgresql://db/bot")).
Proof.
  rewrite (init_db_idempotent Cases.database Cases.empty_config "SQLALCHEMY_DATABASE_URI").
  - reflexivity.
  - intros k v [<-|[<-|[]]] H; vm_compute in H |- *; exact H.
Defined.
